(** * lgmath: the Rotation and Transformation value classes

    A shallow embedding of [src/so3/Rotation.cpp] and
    [src/se3/Transformation.cpp], and the properties of their constructors,
    composition operators, inversion and reprojection.

    Scalars: the C++ [double] is read as a real number (exact arithmetic), so
    [fabs] is [Rabs], [>] is the order of [R] and the literal [1e-6] is the
    real number 10^-6.  Rounding is outside this development.

    Objects: a C++ object is a record of its data members; a member function
    that mutates [*this] is a function from the old object to the new one, and
    a [const] member function returns its result only.  Where an argument
    passed by reference is the receiver itself, each of its data members is
    read before the receiver writes that member, and Eigen evaluates a matrix
    product before it assigns it, so the argument behaves as a copy.  A
    constructor that can throw returns in the [Exec] monad,
    which also records the calls made to the exponential maps in the order
    the code makes them.

    The Lie-group maps of [Operations.hpp] are not in the tree.  The classes
    are embedded over arbitrary maps (section variables); the module
    [Operations] gives the SO(3) maps as the specification describes them. *)

From Stdlib Require Import String.
From Stdlib Require Import Reals Lra RNsatz List Bool PeanoNat Factorial.
Import ListNotations.
Open Scope R_scope.

(** ** The dense linear-algebra substrate (Eigen)

    Fixed-size matrices and vectors have one field per coefficient; the field
    [cIJ] of a matrix is the coefficient [(I,J)] (row, column). *)

Module Eigen.

Record Vector3d : Type := mkVector3d { x0 : R; x1 : R; x2 : R }.

Record Matrix3d : Type := mkMatrix3d {
  c00 : R; c01 : R; c02 : R;
  c10 : R; c11 : R; c12 : R;
  c20 : R; c21 : R; c22 : R }.

Record Vector4d : Type := mkVector4d { h0 : R; h1 : R; h2 : R; h3 : R }.

Record Matrix4d : Type := mkMatrix4d {
  t00 : R; t01 : R; t02 : R; t03 : R;
  t10 : R; t11 : R; t12 : R; t13 : R;
  t20 : R; t21 : R; t22 : R; t23 : R;
  t30 : R; t31 : R; t32 : R; t33 : R }.

Record Vector6d : Type := mkVector6d
  { s0 : R; s1 : R; s2 : R; s3 : R; s4 : R; s5 : R }.

(** [Eigen::VectorXd]: the length is a run-time value. *)
Definition VectorXd : Type := list R.

Definition rows (v : VectorXd) : nat := length v.

(** Conversion of a dynamic vector to a fixed-size one, as done when a
    [VectorXd] is passed where a fixed-size vector is expected; the callers
    below reach it only after the length has been checked. *)
Definition toVector3d (v : VectorXd) : Vector3d :=
  mkVector3d (nth 0 v 0) (nth 1 v 0) (nth 2 v 0).

Definition toVector6d (v : VectorXd) : Vector6d :=
  mkVector6d (nth 0 v 0) (nth 1 v 0) (nth 2 v 0)
             (nth 3 v 0) (nth 4 v 0) (nth 5 v 0).

(** [Eigen::Matrix3d::Identity()] *)
Definition Identity3 : Matrix3d :=
  mkMatrix3d 1 0 0
             0 1 0
             0 0 1.

(** [Eigen::Vector3d::Zero()] *)
Definition Zero3 : Vector3d := mkVector3d 0 0 0.

(** [Eigen::Matrix4d::Identity()] *)
Definition Identity4 : Matrix4d :=
  mkMatrix4d 1 0 0 0
             0 1 0 0
             0 0 1 0
             0 0 0 1.

(** [a + b] on 3-vectors *)
Definition vadd (a b : Vector3d) : Vector3d :=
  mkVector3d (x0 a + x0 b) (x1 a + x1 b) (x2 a + x2 b).

(** [v * k], a vector times a scalar *)
Definition vscale (v : Vector3d) (k : R) : Vector3d :=
  mkVector3d (x0 v * k) (x1 v * k) (x2 v * k).

(** [k * A], a scalar times a matrix *)
Definition mscale (k : R) (A : Matrix3d) : Matrix3d :=
  mkMatrix3d (k * c00 A) (k * c01 A) (k * c02 A)
             (k * c10 A) (k * c11 A) (k * c12 A)
             (k * c20 A) (k * c21 A) (k * c22 A).

(** [A + B] on 3x3 matrices *)
Definition madd (A B : Matrix3d) : Matrix3d :=
  mkMatrix3d (c00 A + c00 B) (c01 A + c01 B) (c02 A + c02 B)
             (c10 A + c10 B) (c11 A + c11 B) (c12 A + c12 B)
             (c20 A + c20 B) (c21 A + c21 B) (c22 A + c22 B).

(** [A * B], the matrix product *)
Definition mmul (A B : Matrix3d) : Matrix3d :=
  mkMatrix3d
    (c00 A * c00 B + c01 A * c10 B + c02 A * c20 B)
    (c00 A * c01 B + c01 A * c11 B + c02 A * c21 B)
    (c00 A * c02 B + c01 A * c12 B + c02 A * c22 B)
    (c10 A * c00 B + c11 A * c10 B + c12 A * c20 B)
    (c10 A * c01 B + c11 A * c11 B + c12 A * c21 B)
    (c10 A * c02 B + c11 A * c12 B + c12 A * c22 B)
    (c20 A * c00 B + c21 A * c10 B + c22 A * c20 B)
    (c20 A * c01 B + c21 A * c11 B + c22 A * c21 B)
    (c20 A * c02 B + c21 A * c12 B + c22 A * c22 B).

(** [A * v], a matrix times a column vector *)
Definition mvmul (A : Matrix3d) (v : Vector3d) : Vector3d :=
  mkVector3d (c00 A * x0 v + c01 A * x1 v + c02 A * x2 v)
             (c10 A * x0 v + c11 A * x1 v + c12 A * x2 v)
             (c20 A * x0 v + c21 A * x1 v + c22 A * x2 v).

(** [A.transpose()] *)
Definition transpose (A : Matrix3d) : Matrix3d :=
  mkMatrix3d (c00 A) (c10 A) (c20 A)
             (c01 A) (c11 A) (c21 A)
             (c02 A) (c12 A) (c22 A).

(** [A.determinant()], expanded along the first row *)
Definition determinant (A : Matrix3d) : R :=
    c00 A * (c11 A * c22 A - c12 A * c21 A)
  - c01 A * (c10 A * c22 A - c12 A * c20 A)
  + c02 A * (c10 A * c21 A - c11 A * c20 A).

(** [A.trace()] *)
Definition trace (A : Matrix3d) : R := c00 A + c11 A + c22 A.

(** [v.squaredNorm()] *)
Definition squaredNorm (v : Vector3d) : R :=
  x0 v * x0 v + x1 v * x1 v + x2 v * x2 v.

(** [v.norm()] *)
Definition norm (v : Vector3d) : R := sqrt (squaredNorm v).

(** [T.block<3,3>(0,0)], read *)
Definition block33 (T : Matrix4d) : Matrix3d :=
  mkMatrix3d (t00 T) (t01 T) (t02 T)
             (t10 T) (t11 T) (t12 T)
             (t20 T) (t21 T) (t22 T).

(** [T.block<3,1>(0,3)], read *)
Definition block31 (T : Matrix4d) : Vector3d :=
  mkVector3d (t03 T) (t13 T) (t23 T).

(** [T.topLeftCorner<3,3>() = C], write *)
Definition set_topLeftCorner33 (T : Matrix4d) (C : Matrix3d) : Matrix4d :=
  mkMatrix4d (c00 C) (c01 C) (c02 C) (t03 T)
             (c10 C) (c11 C) (c12 C) (t13 T)
             (c20 C) (c21 C) (c22 C) (t23 T)
             (t30 T) (t31 T) (t32 T) (t33 T).

(** [T.topRightCorner<3,1>() = r], write *)
Definition set_topRightCorner31 (T : Matrix4d) (r : Vector3d) : Matrix4d :=
  mkMatrix4d (t00 T) (t01 T) (t02 T) (x0 r)
             (t10 T) (t11 T) (t12 T) (x1 r)
             (t20 T) (t21 T) (t22 T) (x2 r)
             (t30 T) (t31 T) (t32 T) (t33 T).

(** [T * p], a 4x4 matrix times a homogeneous column vector *)
Definition m4vmul (T : Matrix4d) (p : Vector4d) : Vector4d :=
  mkVector4d
    (t00 T * h0 p + t01 T * h1 p + t02 T * h2 p + t03 T * h3 p)
    (t10 T * h0 p + t11 T * h1 p + t12 T * h2 p + t13 T * h3 p)
    (t20 T * h0 p + t21 T * h1 p + t22 T * h2 p + t23 T * h3 p)
    (t30 T * h0 p + t31 T * h1 p + t32 T * h2 p + t33 T * h3 p).

(** [p.head<3>()], read *)
Definition head3 (p : Vector4d) : Vector3d :=
  mkVector3d (h0 p) (h1 p) (h2 p).

(** [a - b] on 3-vectors *)
Definition vsub (a b : Vector3d) : Vector3d :=
  mkVector3d (x0 a - x0 b) (x1 a - x1 b) (x2 a - x2 b).

(** [T * U], the product of 4x4 matrices *)
Definition m4mul (T U : Matrix4d) : Matrix4d :=
  mkMatrix4d
    (t00 T * t00 U + t01 T * t10 U + t02 T * t20 U + t03 T * t30 U)
    (t00 T * t01 U + t01 T * t11 U + t02 T * t21 U + t03 T * t31 U)
    (t00 T * t02 U + t01 T * t12 U + t02 T * t22 U + t03 T * t32 U)
    (t00 T * t03 U + t01 T * t13 U + t02 T * t23 U + t03 T * t33 U)
    (t10 T * t00 U + t11 T * t10 U + t12 T * t20 U + t13 T * t30 U)
    (t10 T * t01 U + t11 T * t11 U + t12 T * t21 U + t13 T * t31 U)
    (t10 T * t02 U + t11 T * t12 U + t12 T * t22 U + t13 T * t32 U)
    (t10 T * t03 U + t11 T * t13 U + t12 T * t23 U + t13 T * t33 U)
    (t20 T * t00 U + t21 T * t10 U + t22 T * t20 U + t23 T * t30 U)
    (t20 T * t01 U + t21 T * t11 U + t22 T * t21 U + t23 T * t31 U)
    (t20 T * t02 U + t21 T * t12 U + t22 T * t22 U + t23 T * t32 U)
    (t20 T * t03 U + t21 T * t13 U + t22 T * t23 U + t23 T * t33 U)
    (t30 T * t00 U + t31 T * t10 U + t32 T * t20 U + t33 T * t30 U)
    (t30 T * t01 U + t31 T * t11 U + t32 T * t21 U + t33 T * t31 U)
    (t30 T * t02 U + t31 T * t12 U + t32 T * t22 U + t33 T * t32 U)
    (t30 T * t03 U + t31 T * t13 U + t32 T * t23 U + t33 T * t33 U).

(** The bottom row of a homogeneous transformation matrix, [0 0 0 1]. *)
Definition bottom_row_0001 (T : Matrix4d) : Prop :=
  t30 T = 0 /\ t31 T = 0 /\ t32 T = 0 /\ t33 T = 1.

(** Two 4x4 matrices with the same top three rows. *)
Definition same_top_three_rows (T U : Matrix4d) : Prop :=
  t00 T = t00 U /\ t01 T = t01 U /\ t02 T = t02 U /\ t03 T = t03 U /\
  t10 T = t10 U /\ t11 T = t11 U /\ t12 T = t12 U /\ t13 T = t13 U /\
  t20 T = t20 U /\ t21 T = t21 U /\ t22 T = t22 U /\ t23 T = t23 U.

(** The adjugate (transposed matrix of cofactors): [A * adjugate A] is
    [det A] times the identity.  Used in the proofs only. *)
Definition adjugate (A : Matrix3d) : Matrix3d :=
  mkMatrix3d
    (c11 A * c22 A - c12 A * c21 A)
    (c02 A * c21 A - c01 A * c22 A)
    (c01 A * c12 A - c02 A * c11 A)
    (c12 A * c20 A - c10 A * c22 A)
    (c00 A * c22 A - c02 A * c20 A)
    (c02 A * c10 A - c00 A * c12 A)
    (c10 A * c21 A - c11 A * c20 A)
    (c01 A * c20 A - c00 A * c21 A)
    (c00 A * c11 A - c01 A * c10 A).

(** The two predicates of the rotation group: [Ct * C = I] and [det C = 1]. *)
Definition orthonormal (C : Matrix3d) : Prop :=
  mmul (transpose C) C = Identity3.

Definition SO3 (C : Matrix3d) : Prop :=
  orthonormal C /\ determinant C = 1.

End Eigen.

(** ** Exceptions of [<stdexcept>] and the monad of throwing code *)

Module std.

(** The two classes the sources throw.  [std::invalid_argument] derives from
    [std::logic_error]. *)
Inductive exception : Type :=
| logic_error (what_arg : string)
| invalid_argument (what_arg : string).

(** Which objects a handler [catch (const std::logic_error&)] catches. *)
Definition is_logic_error (e : exception) : bool :=
  match e with
  | logic_error _ => true
  | invalid_argument _ => true
  end.

(** Which objects a handler [catch (const std::invalid_argument&)] catches. *)
Definition is_invalid_argument (e : exception) : bool :=
  match e with
  | logic_error _ => false
  | invalid_argument _ => true
  end.

End std.

(** Calls into the Lie-group operations of [Operations.hpp], with their
    arguments. *)
Inductive call : Type :=
| call_vec2rot (aaxis_ba : Eigen.Vector3d) (numTerms : nat)
| call_vec2tran (xi_ba : Eigen.Vector6d) (numTerms : nat).

(** A computation that may throw: the calls made so far, and either the
    exception thrown or the value returned. *)
Definition Exec (A : Type) : Type := (list call * (std.exception + A))%type.

Definition ret {A : Type} (a : A) : Exec A := ([], inr a).

Definition throw {A : Type} (e : std.exception) : Exec A := ([], inl e).

Definition bind {A B : Type} (m : Exec A) (k : A -> Exec B) : Exec B :=
  match m with
  | (tr, inl e) => (tr, inl e)
  | (tr, inr a) => let (tr', r) := k a in (tr ++ tr', r)
  end.

(** Performing a call: it is recorded, and its result returned. *)
Definition perform {A : Type} (c : call) (result : A) : Exec A :=
  ([c], inr result).

Notation "x <- m ;; k" := (bind m (fun x => k))
  (at level 61, m at next level, right associativity).
Notation "m ;;; k" := (bind m (fun _ => k))
  (at level 61, right associativity).

Definition calls {A : Type} (m : Exec A) : list call := fst m.
Definition outcome {A : Type} (m : Exec A) : std.exception + A := snd m.

(** The comparison [a > b] on doubles, as a boolean. *)
Definition Rgtb (a b : R) : bool := if Rgt_dec a b then true else false.

(** ** [lgmath::so3::Rotation] (src/so3/Rotation.cpp) *)

Module so3.
Import Eigen.

(** The class has one data member, the rotation matrix [C_ba_]. *)
Record Rotation : Type := mkRotation { C_ba_ : Matrix3d }.

Section RotationClass.

(** The maps of [lgmath/so3/Operations.hpp] that the class calls.  Their code
    is not part of this tree; the class is embedded over any pair of them.
    [vec2rot] is declared with the default argument [numTerms = 0]. *)
Variable vec2rot : Vector3d -> nat -> Matrix3d.
Variable rot2vec : Matrix3d -> Vector3d.

(** [Rotation::Rotation()] *)
Definition Rotation_default : Rotation :=
  mkRotation Identity3.

(** [Rotation::Rotation(const Rotation& C)] *)
Definition Rotation_copy (C : Rotation) : Rotation :=
  mkRotation (C_ba_ C).

(** [Rotation::Rotation(const Eigen::Matrix3d& C, bool reproj)] *)
Definition Rotation_of_Matrix3d (C : Matrix3d) (reproj : bool) : Rotation :=
  if reproj
  then mkRotation (vec2rot (rot2vec C) 0)
  else mkRotation C.

(** [Rotation::Rotation(const Eigen::Vector3d& aaxis_ab, unsigned int numTerms)] *)
Definition Rotation_of_Vector3d (aaxis_ab : Vector3d) (numTerms : nat)
  : Rotation :=
  mkRotation (vec2rot aaxis_ab numTerms).

(** [Rotation::Rotation(const Eigen::VectorXd& aaxis_ab)] *)
Definition Rotation_of_VectorXd (aaxis_ab : VectorXd) : Exec Rotation :=
  (if negb (rows aaxis_ab =? 3)%nat
   then throw (std.logic_error
     "Tried to initialize a rotation from a VectorXd that was not dimension 3")
   else ret tt) ;;;
  C <- perform (call_vec2rot (toVector3d aaxis_ab) 0)
               (vec2rot (toVector3d aaxis_ab) 0) ;;
  ret (mkRotation C).

(** [Rotation::operator=(Rotation C)]: the argument is a copy, whose matrix
    is swapped with the receiver's; the copy is then destroyed. *)
Definition operator_assign (this C : Rotation) : Rotation :=
  let (this_C_ba_, C_C_ba_) := (C_ba_ C, C_ba_ this) in
  mkRotation this_C_ba_.

(** [Rotation::matrix() const] *)
Definition matrix (this : Rotation) : Matrix3d := C_ba_ this.

(** [Rotation::vec() const] *)
Definition vec (this : Rotation) : Vector3d := rot2vec (C_ba_ this).

(** [Rotation::inverse() const] *)
Definition inverse (this : Rotation) : Rotation :=
  let temp := Rotation_default in
  let temp := mkRotation (transpose (C_ba_ this)) in
  temp.

(** [Rotation::operator*=(const Rotation& C_rhs)] *)
Definition operator_mul_assign (this C_rhs : Rotation) : Rotation :=
  mkRotation (mmul (C_ba_ this) (C_ba_ C_rhs)).

(** [Rotation::operator*(const Rotation& C_rhs) const] *)
Definition operator_mul (this C_rhs : Rotation) : Rotation :=
  let temp := Rotation_copy this in
  let temp := operator_mul_assign temp C_rhs in
  temp.

(** [Rotation::operator/=(const Rotation& C_rhs)] *)
Definition operator_div_assign (this C_rhs : Rotation) : Rotation :=
  mkRotation (mmul (C_ba_ this) (transpose (C_ba_ C_rhs))).

(** [Rotation::operator/(const Rotation& C_rhs) const] *)
Definition operator_div (this C_rhs : Rotation) : Rotation :=
  let temp := Rotation_copy this in
  let temp := operator_div_assign temp C_rhs in
  temp.

(** [Rotation::operator*(const Eigen::Vector3d& p_a) const] *)
Definition operator_mul_point (this : Rotation) (p_a : Vector3d) : Vector3d :=
  mvmul (C_ba_ this) p_a.

(** The objects obtained from rotations holding a matrix of SO(3) by the
    composition operators, inversion, and construction with reprojection. *)
Inductive reachable : Rotation -> Prop :=
| reach_valid (C : Rotation) :
    SO3 (C_ba_ C) -> reachable C
| reach_mul_assign (C D : Rotation) :
    reachable C -> reachable D -> reachable (operator_mul_assign C D)
| reach_mul (C D : Rotation) :
    reachable C -> reachable D -> reachable (operator_mul C D)
| reach_div_assign (C D : Rotation) :
    reachable C -> reachable D -> reachable (operator_div_assign C D)
| reach_div (C D : Rotation) :
    reachable C -> reachable D -> reachable (operator_div C D)
| reach_inverse (C : Rotation) :
    reachable C -> reachable (inverse C)
| reach_reproject (C : Rotation) (reproj : bool) :
    reachable C -> reachable (Rotation_of_Matrix3d (C_ba_ C) reproj).

End RotationClass.

End so3.

(** ** [lgmath::se3::Transformation] (src/se3/Transformation.cpp) *)

Module se3.
Import Eigen.

(** The class has two data members: the rotation matrix [C_ba_] and the
    translation [r_ab_inb_]. *)
Record Transformation : Type := mkTransformation {
  C_ba_ : Matrix3d;
  r_ab_inb_ : Vector3d }.

(** Assignment to one data member of [*this]. *)
Definition set_C_ba_ (this : Transformation) (C : Matrix3d) : Transformation :=
  mkTransformation C (r_ab_inb_ this).

Definition set_r_ab_inb_ (this : Transformation) (r : Vector3d)
  : Transformation :=
  mkTransformation (C_ba_ this) r.

(** The determinant of a stored rotation is within the tolerance of
    [reproject(false)]: the test [fabs(1.0 - det) > 1e-6] is negative. *)
Definition no_drift (C : Matrix3d) : Prop :=
  Rabs (1 - determinant C) <= 1e-6.

Section TransformationClass.

(** The maps of [lgmath/so3/Operations.hpp] and [lgmath/se3/Operations.hpp]
    that the class calls; their code is not part of this tree.  [so3::vec2rot]
    is declared with the default argument [numTerms = 0]; [se3::vec2tran]
    writes its two results through pointers, here it returns them as a pair. *)
Variable vec2rot : Vector3d -> nat -> Matrix3d.
Variable rot2vec : Matrix3d -> Vector3d.
Variable vec2tran : Vector6d -> nat -> Matrix3d * Vector3d.
Variable tran2vec : Matrix3d -> Vector3d -> Vector6d.

(** [Transformation::reproject(bool force)] *)
Definition reproject (force : bool) (this : Transformation) : Transformation :=
  if force || Rgtb (Rabs (1 - determinant (C_ba_ this))) 1e-6
  then set_C_ba_ this (vec2rot (rot2vec (C_ba_ this)) 0)
  else this.

(** [Transformation::Transformation()] *)
Definition Transformation_default : Transformation :=
  mkTransformation Identity3 Zero3.

(** [Transformation::Transformation(const Transformation&)], the implicit copy *)
Definition Transformation_copy (T : Transformation) : Transformation :=
  mkTransformation (C_ba_ T) (r_ab_inb_ T).

(** [Transformation::Transformation(const Eigen::Matrix4d& T)] *)
Definition Transformation_of_Matrix4d (T : Matrix4d) : Transformation :=
  let this := mkTransformation (block33 T) (block31 T) in
  reproject false this.

(** [Transformation::Transformation(Transformation&& T)]; the members are
    copied, as the comment in the source says. *)
Definition Transformation_move (T : Transformation) : Transformation :=
  mkTransformation (C_ba_ T) (r_ab_inb_ T).

(** [Transformation::Transformation(const Eigen::Matrix3d& C_ba,
    const Eigen::Vector3d& r_ba_ina)].  The two members are not initialised
    before the body runs: [indeterminate] stands for what they hold then. *)
Definition Transformation_of_C_ba_r_ba_ina
  (indeterminate : Transformation) (C_ba : Matrix3d) (r_ba_ina : Vector3d)
  : Transformation :=
  let this := indeterminate in
  let this := set_C_ba_ this C_ba in
  let this := reproject false this in
  let this :=
    set_r_ab_inb_ this (mvmul (mscale (-1) (C_ba_ this)) r_ba_ina) in
  this.

(** [Transformation::operator=(Transformation&& T)] *)
Definition operator_assign_move (this T : Transformation) : Transformation :=
  let this := set_C_ba_ this (C_ba_ T) in
  let this := set_r_ab_inb_ this (r_ab_inb_ T) in
  this.

(** [Transformation::Transformation(const Eigen::Matrix<double,6,1>& xi_ab,
    unsigned int numTerms)] *)
Definition Transformation_of_Vector6d (xi_ab : Vector6d) (numTerms : nat)
  : Transformation :=
  let (C, r) := vec2tran xi_ab numTerms in
  mkTransformation C r.

(** [Transformation::Transformation(const Eigen::VectorXd& xi_ab)] *)
Definition Transformation_of_VectorXd (xi_ab : VectorXd)
  : Exec Transformation :=
  (if negb (rows xi_ab =? 6)%nat
   then throw (std.invalid_argument
     "Tried to initialize a transformation from a VectorXd that was not dimension 6")
   else ret tt) ;;;
  Cr <- perform (call_vec2tran (toVector6d xi_ab) 0)
                (vec2tran (toVector6d xi_ab) 0) ;;
  ret (mkTransformation (fst Cr) (snd Cr)).

(** [Transformation::matrix() const] *)
Definition matrix (this : Transformation) : Matrix4d :=
  let T_ba := Identity4 in
  let T_ba := set_topLeftCorner33 T_ba (C_ba_ this) in
  let T_ba := set_topRightCorner31 T_ba (r_ab_inb_ this) in
  T_ba.

(** [Transformation::C_ba() const] *)
Definition C_ba (this : Transformation) : Matrix3d := C_ba_ this.

(** [Transformation::r_ba_ina() const] *)
Definition r_ba_ina (this : Transformation) : Vector3d :=
  mvmul (mscale (-1) (transpose (C_ba_ this))) (r_ab_inb_ this).

(** [Transformation::r_ab_inb() const] *)
Definition r_ab_inb (this : Transformation) : Vector3d := r_ab_inb_ this.

(** [Transformation::vec() const] *)
Definition vec (this : Transformation) : Vector6d :=
  tran2vec (C_ba_ this) (r_ab_inb_ this).

(** [Transformation::inverse() const] *)
Definition inverse (this : Transformation) : Transformation :=
  let temp := Transformation_default in
  let temp := set_C_ba_ temp (transpose (C_ba_ this)) in
  let temp := reproject false temp in
  let temp :=
    set_r_ab_inb_ temp (mvmul (mscale (-1) (C_ba_ temp)) (r_ab_inb_ this)) in
  temp.

(** [Transformation::operator*=(const Transformation& T_rhs)] *)
Definition operator_mul_assign (this T_rhs : Transformation) : Transformation :=
  let this :=
    set_r_ab_inb_ this
      (vadd (r_ab_inb_ this) (mvmul (C_ba_ this) (r_ab_inb_ T_rhs))) in
  let this := set_C_ba_ this (mmul (C_ba_ this) (C_ba_ T_rhs)) in
  let this := reproject false this in
  this.

(** [Transformation::operator*(const Transformation& T_rhs) const] *)
Definition operator_mul (this T_rhs : Transformation) : Transformation :=
  let temp := Transformation_copy this in
  let temp := operator_mul_assign temp T_rhs in
  temp.

(** [Transformation::operator/=(const Transformation& T_rhs)] *)
Definition operator_div_assign (this T_rhs : Transformation) : Transformation :=
  let this := set_C_ba_ this (mmul (C_ba_ this) (transpose (C_ba_ T_rhs))) in
  let this :=
    set_r_ab_inb_ this
      (vadd (r_ab_inb_ this)
            (mvmul (mscale (-1) (C_ba_ this)) (r_ab_inb_ T_rhs))) in
  let this := reproject false this in
  this.

(** [Transformation::operator/(const Transformation& T_rhs) const] *)
Definition operator_div (this T_rhs : Transformation) : Transformation :=
  let temp := Transformation_copy this in
  let temp := operator_div_assign temp T_rhs in
  temp.

(** [Transformation::operator*(const Eigen::Vector4d& p_a) const].  The local
    [p_b] is declared without a value; its first three coefficients and then
    its fourth are written before it is returned. *)
Definition operator_mul_point (this : Transformation) (p_a : Vector4d)
  : Vector4d :=
  let p_b_head :=
    vadd (mvmul (C_ba_ this) (head3 p_a))
         (vscale (r_ab_inb_ this) (h3 p_a)) in
  let p_b_3 := h3 p_a in
  mkVector4d (x0 p_b_head) (x1 p_b_head) (x2 p_b_head) p_b_3.

(** The objects obtained from transformations whose rotation block is in
    SO(3) by the composition operators, inversion and reprojection. *)
Inductive reachable : Transformation -> Prop :=
| reach_valid (T : Transformation) :
    SO3 (C_ba_ T) -> reachable T
| reach_mul_assign (T U : Transformation) :
    reachable T -> reachable U -> reachable (operator_mul_assign T U)
| reach_mul (T U : Transformation) :
    reachable T -> reachable U -> reachable (operator_mul T U)
| reach_div_assign (T U : Transformation) :
    reachable T -> reachable U -> reachable (operator_div_assign T U)
| reach_div (T U : Transformation) :
    reachable T -> reachable U -> reachable (operator_div T U)
| reach_inverse (T : Transformation) :
    reachable T -> reachable (inverse T)
| reach_reproject (T : Transformation) (force : bool) :
    reachable T -> reachable (reproject force T).

End TransformationClass.

End se3.

(** ** The SO(3) maps of [lgmath/so3/Operations.hpp]

    The file is not part of this tree.  The definitions of this module follow
    sections 4.1 and 4.2 of the specification.  The specification names a
    small tolerance below which [vec2rot] returns the identity and an angular
    tolerance for "near 0" and "near pi" in [rot2vec] without giving their
    values: they are the parameters [small_tol] and [angle_tol]. *)

Module Operations.
Import Eigen.

(** [A - B] on 3x3 matrices *)
Definition msub (A B : Matrix3d) : Matrix3d :=
  madd A (mscale (-1) B).

(** Modelled from the spec: [so3::hat] is missing; the skew-symmetric
    (cross-product) matrix of a 3-vector. *)
Definition hat (v : Vector3d) : Matrix3d :=
  mkMatrix3d 0        (- x2 v) (x1 v)
             (x2 v)   0        (- x0 v)
             (- x1 v) (x0 v)   0.

(** Modelled from the spec: the inverse of [hat] is missing; it extracts the
    vector of a skew-symmetric matrix. *)
Definition vee (A : Matrix3d) : Vector3d :=
  mkVector3d (c21 A) (c02 A) (c10 A).

(** Modelled from the spec: the series form of [vec2rot] is missing; the
    partial sum [I + K + K^2/2! + ... + K^n/n!]. *)
Fixpoint mpow (K : Matrix3d) (n : nat) : Matrix3d :=
  match n with
  | O => Identity3
  | S m => mmul (mpow K m) K
  end.

Fixpoint exp_series (K : Matrix3d) (n : nat) : Matrix3d :=
  match n with
  | O => Identity3
  | S m => madd (exp_series K m) (mscale (/ INR (fact n)) (mpow K n))
  end.

(** Modelled from the spec: the clamp of [rot2vec] is missing; clamping to
    [[-1, 1]] before the inverse cosine. *)
Definition clamp (x : R) : R := Rmax (-1) (Rmin 1 x).

Definition Rltb (a b : R) : bool := if Rlt_dec a b then true else false.

Definition Rleb (a b : R) : bool := if Rle_dec a b then true else false.

(** Modelled from the spec: the closed form of [vec2rot] is missing;
    Rodrigues' formula [I + a * hat(phi) + b * hat(phi)^2] with its two
    coefficients. *)
Definition rodrigues (a b : R) (phi : Vector3d) : Matrix3d :=
  madd (madd Identity3 (mscale a (hat phi)))
       (mscale b (mmul (hat phi) (hat phi))).

Section Maps.

Variable small_tol : R.
Variable angle_tol : R.

(** Modelled from the spec: [so3::vec2rot] is missing (section 4.1).  With
    [numTerms = 0] it is the closed form: the identity when the angle is below
    the small tolerance, Rodrigues' formula with [a = sin(theta)/theta] and
    [b = (1 - cos(theta))/theta^2] otherwise; with [numTerms > 0] it is the
    power series to that order. *)
Definition vec2rot (aaxis_ba : Vector3d) (numTerms : nat) : Matrix3d :=
  match numTerms with
  | O =>
      let theta := norm aaxis_ba in
      if Rltb theta small_tol
      then Identity3
      else rodrigues (sin theta / theta)
                     ((1 - cos theta) / (theta * theta))
                     aaxis_ba
  | S _ => exp_series (hat aaxis_ba) numTerms
  end.

(** Modelled from the spec: the fallback of [so3::rot2vec] near pi is missing
    (section 4.2).  The axis is read off [(R + I)/2], which is the outer
    product of the axis with itself at angle pi: the largest diagonal entry
    is the square of the dominant component, which is taken positive, and the
    off-diagonal entries of its row give the other two components with their
    signs. *)
Definition axis_near_pi (R_ab : Matrix3d) : Vector3d :=
  let M := mscale (/ 2) (madd R_ab Identity3) in
  if Rleb (c11 M) (c00 M) && Rleb (c22 M) (c00 M)
  then let n0 := sqrt (c00 M) in mkVector3d n0 (c01 M / n0) (c02 M / n0)
  else if Rleb (c22 M) (c11 M)
  then let n1 := sqrt (c11 M) in mkVector3d (c10 M / n1) n1 (c12 M / n1)
  else let n2 := sqrt (c22 M) in mkVector3d (c20 M / n2) (c21 M / n2) n2.

(** Modelled from the spec: [so3::rot2vec] is missing (section 4.2). *)
Definition rot2vec (R_ab : Matrix3d) : Vector3d :=
  let theta := acos (clamp ((trace R_ab - 1) / 2)) in
  if Rltb theta angle_tol
  then Zero3
  else if Rltb (PI - theta) angle_tol
  then vscale (axis_near_pi R_ab) theta
  else vscale (vee (msub R_ab (transpose R_ab))) (theta / (2 * sin theta)).

(** [Rotation(phi, 0).vec()] over these two maps: the exponential followed
    by the logarithm. *)
Definition round_trip (phi : Vector3d) : Vector3d :=
  so3.vec rot2vec (so3.Rotation_of_Vector3d vec2rot phi 0).

End Maps.

(** The rotation by the angle pi about the unit axis [n], [2 n n^T - I].
    Used in the proofs only. *)
Definition half_turn (n : Vector3d) : Matrix3d :=
  mkMatrix3d (2 * x0 n * x0 n - 1) (2 * x0 n * x1 n) (2 * x0 n * x2 n)
             (2 * x1 n * x0 n) (2 * x1 n * x1 n - 1) (2 * x1 n * x2 n)
             (2 * x2 n * x0 n) (2 * x2 n * x1 n) (2 * x2 n * x2 n - 1).

End Operations.

(** * Properties *)

(** ** Matrix algebra used below *)

Module EigenFacts.
Import Eigen.

(** Unfolding to coefficients, by value so that no argument is copied
    before it is reduced. *)
Ltac coeffs :=
  cbv [mmul madd mscale mvmul vadd vscale transpose adjugate trace determinant
       squaredNorm Identity3 Zero3 Identity4 block33 block31
       set_topLeftCorner33 set_topRightCorner31 m4vmul head3
       c00 c01 c02 c10 c11 c12 c20 c21 c22 x0 x1 x2 h0 h1 h2 h3
       t00 t01 t02 t03 t10 t11 t12 t13 t20 t21 t22 t23 t30 t31 t32 t33].

Ltac by_coefficients :=
  repeat match goal with
         | A : Matrix3d |- _ => destruct A
         | v : Vector3d |- _ => destruct v
         | p : Vector4d |- _ => destruct p
         | T : Matrix4d |- _ => destruct T
         end;
  coeffs; f_equal; try ring.

Lemma mmul_assoc (A B C : Matrix3d) :
  mmul (mmul A B) C = mmul A (mmul B C).
Proof. by_coefficients. Qed.

Lemma mmul_Identity3_r (A : Matrix3d) : mmul A Identity3 = A.
Proof. by_coefficients. Qed.

Lemma mmul_Identity3_l (A : Matrix3d) : mmul Identity3 A = A.
Proof. by_coefficients. Qed.

Lemma transpose_mmul (A B : Matrix3d) :
  transpose (mmul A B) = mmul (transpose B) (transpose A).
Proof. by_coefficients. Qed.

Lemma transpose_transpose (A : Matrix3d) : transpose (transpose A) = A.
Proof. by_coefficients. Qed.

Lemma transpose_Identity3 : transpose Identity3 = Identity3.
Proof. reflexivity. Qed.

Lemma determinant_mmul (A B : Matrix3d) :
  determinant (mmul A B) = determinant A * determinant B.
Proof. destruct A, B; coeffs; ring. Qed.

Lemma determinant_transpose (A : Matrix3d) :
  determinant (transpose A) = determinant A.
Proof. destruct A; coeffs; ring. Qed.

Lemma determinant_Identity3 : determinant Identity3 = 1.
Proof. coeffs; ring. Qed.

Lemma mmul_adjugate (A : Matrix3d) :
  mmul A (adjugate A) = mscale (determinant A) Identity3.
Proof. destruct A; coeffs; f_equal; ring. Qed.

Lemma mscale_1 (A : Matrix3d) : mscale 1 A = A.
Proof. by_coefficients. Qed.

Lemma mvmul_mmul (A B : Matrix3d) (v : Vector3d) :
  mvmul (mmul A B) v = mvmul A (mvmul B v).
Proof. by_coefficients. Qed.

Lemma mvmul_Identity3 (v : Vector3d) : mvmul Identity3 v = v.
Proof. by_coefficients. Qed.

Lemma mvmul_Zero3 (A : Matrix3d) : mvmul A Zero3 = Zero3.
Proof. by_coefficients. Qed.

Lemma mscale_mmul_r (k : R) (A B : Matrix3d) :
  mmul A (mscale k B) = mscale k (mmul A B).
Proof. by_coefficients. Qed.

Lemma vadd_Zero3_r (v : Vector3d) : vadd v Zero3 = v.
Proof. by_coefficients. Qed.

Lemma vadd_Zero3_l (v : Vector3d) : vadd Zero3 v = v.
Proof. by_coefficients. Qed.

(** In a matrix of determinant 1 a left inverse is the adjugate, hence also a
    right inverse. *)
Lemma left_inverse_is_adjugate (X C : Matrix3d) :
  mmul X C = Identity3 -> determinant C = 1 -> X = adjugate C.
Proof.
  intros HXC Hdet.
  rewrite <- (mmul_Identity3_r X).
  rewrite <- (mscale_1 Identity3), <- Hdet, <- mmul_adjugate.
  rewrite <- mmul_assoc, HXC.
  apply mmul_Identity3_l.
Qed.

Lemma SO3_transpose_right (C : Matrix3d) :
  SO3 C -> mmul C (transpose C) = Identity3.
Proof.
  intros [Horth Hdet].
  rewrite (left_inverse_is_adjugate _ _ Horth Hdet), mmul_adjugate, Hdet.
  apply mscale_1.
Qed.

Lemma SO3_Identity3 : SO3 Identity3.
Proof.
  split.
  - unfold orthonormal. rewrite transpose_Identity3. apply mmul_Identity3_l.
  - apply determinant_Identity3.
Qed.

Lemma SO3_mmul (A B : Matrix3d) : SO3 A -> SO3 B -> SO3 (mmul A B).
Proof.
  intros [HA dA] [HB dB]. split.
  - unfold orthonormal in *.
    rewrite transpose_mmul, mmul_assoc, <- (mmul_assoc (transpose A)), HA.
    now rewrite mmul_Identity3_l.
  - now rewrite determinant_mmul, dA, dB, Rmult_1_r.
Qed.

Lemma SO3_transpose (C : Matrix3d) : SO3 C -> SO3 (transpose C).
Proof.
  intros H. split.
  - unfold orthonormal. rewrite transpose_transpose.
    now apply SO3_transpose_right.
  - rewrite determinant_transpose. apply H.
Qed.

(** The test of [reproject(false)] is negative on a matrix of determinant 1. *)
Lemma Rgtb_false (a b : R) : a <= b -> Rgtb a b = false.
Proof. intros H. unfold Rgtb. destruct (Rgt_dec a b); [lra | reflexivity]. Qed.

Lemma Rgtb_true (a b : R) : a > b -> Rgtb a b = true.
Proof. intros H. unfold Rgtb. destruct (Rgt_dec a b); [reflexivity | lra]. Qed.

Lemma drift_test_det_1 (C : Matrix3d) :
  determinant C = 1 -> Rgtb (Rabs (1 - determinant C)) 1e-6 = false.
Proof.
  intros ->. apply Rgtb_false.
  replace (1 - 1) with 0 by ring. rewrite Rabs_R0. lra.
Qed.

End EigenFacts.

Import Eigen EigenFacts.

(** ** Reprojection and the operations of [Transformation] *)

Section TransformationProperties.

Variable vec2rot : Vector3d -> nat -> Matrix3d.
Variable rot2vec : Matrix3d -> Vector3d.

Local Abbreviation reproject := (se3.reproject vec2rot rot2vec).
Local Abbreviation inverse := (se3.inverse vec2rot rot2vec).
Local Abbreviation operator_mul_assign := (se3.operator_mul_assign vec2rot rot2vec).
Local Abbreviation operator_mul := (se3.operator_mul vec2rot rot2vec).
Local Abbreviation operator_div_assign := (se3.operator_div_assign vec2rot rot2vec).
Local Abbreviation operator_div := (se3.operator_div vec2rot rot2vec).
Local Abbreviation Transformation_of_Matrix4d :=
  (se3.Transformation_of_Matrix4d vec2rot rot2vec).

Lemma reproject_fires (force : bool) (T : se3.Transformation) :
  force || Rgtb (Rabs (1 - determinant (se3.C_ba_ T))) 1e-6 = true ->
  reproject force T =
  se3.mkTransformation (vec2rot (rot2vec (se3.C_ba_ T)) 0) (se3.r_ab_inb_ T).
Proof. intros H. unfold se3.reproject. now rewrite H. Qed.

Lemma reproject_skips (force : bool) (T : se3.Transformation) :
  force || Rgtb (Rabs (1 - determinant (se3.C_ba_ T))) 1e-6 = false ->
  reproject force T = T.
Proof. intros H. unfold se3.reproject. now rewrite H. Qed.

Lemma reproject_false_det_1 (T : se3.Transformation) :
  determinant (se3.C_ba_ T) = 1 -> reproject false T = T.
Proof.
  intros H. apply reproject_skips. cbn [orb]. now apply drift_test_det_1.
Qed.

(** C1: [reproject(force)] stores [vec2rot(rot2vec(C))] as the rotation when
    [force] is true or [|1 - det C| > 1e-6], and in every other case leaves the
    rotation as it was. *)
Theorem reproject_policy (T : se3.Transformation) (force : bool) :
  (force = true \/ Rabs (1 - determinant (se3.C_ba_ T)) > 1e-6 ->
   se3.C_ba_ (reproject force T) = vec2rot (rot2vec (se3.C_ba_ T)) 0)
  /\
  (~ (force = true \/ Rabs (1 - determinant (se3.C_ba_ T)) > 1e-6) ->
   se3.C_ba_ (reproject force T) = se3.C_ba_ T).
Proof.
  split; intros H.
  - rewrite reproject_fires; [reflexivity |].
    apply orb_true_iff. destruct H as [H | H]; [now left | right].
    now apply Rgtb_true.
  - rewrite reproject_skips; [reflexivity |].
    apply orb_false_iff. split.
    + destruct force; [exfalso; apply H; now left | reflexivity].
    + apply Rgtb_false. apply Rnot_gt_le. intros Hgt. apply H. now right.
Qed.

(** The conditional form on two inputs: twice the identity has determinant 8
    and is reprojected; the identity is left alone. *)
Example reproject_false_doubled_identity (r : Vector3d) :
  se3.C_ba_ (reproject false (se3.mkTransformation (mscale 2 Identity3) r))
  = vec2rot (rot2vec (mscale 2 Identity3)) 0.
Proof.
  rewrite reproject_fires; [reflexivity |].
  cbn [orb se3.C_ba_]. apply Rgtb_true.
  replace (determinant (mscale 2 Identity3)) with 8 by (coeffs; ring).
  replace (1 - 8) with (- (7)) by ring.
  rewrite Rabs_Ropp, Rabs_right; lra.
Qed.

Example reproject_false_identity :
  reproject false se3.Transformation_default = se3.Transformation_default.
Proof. apply reproject_false_det_1. apply determinant_Identity3. Qed.

(** C2: [reproject(force)] never changes the translation [r_ab_inb_]. *)
Theorem reproject_keeps_translation (T : se3.Transformation) (force : bool) :
  se3.r_ab_inb_ (reproject force T) = se3.r_ab_inb_ T.
Proof.
  unfold se3.reproject.
  destruct (force || Rgtb (Rabs (1 - determinant (se3.C_ba_ T))) 1e-6);
    reflexivity.
Qed.

(** C5: [T * p] on a homogeneous point is the product of the 4x4 matrix
    [T.matrix()] with [p]: its head is [C * p.head<3>() + r * p[3]] and its
    last coefficient is [p[3]]. *)
Theorem operator_mul_point_is_matrix_product
  (T : se3.Transformation) (p : Vector4d) :
  se3.operator_mul_point T p = m4vmul (se3.matrix T) p
  /\ head3 (se3.operator_mul_point T p) =
     vadd (mvmul (se3.C_ba_ T) (head3 p)) (vscale (se3.r_ab_inb_ T) (h3 p))
  /\ h3 (se3.operator_mul_point T p) = h3 p.
Proof.
  destruct T as [C r]. split; [| split].
  - unfold se3.operator_mul_point, se3.matrix. by_coefficients.
  - reflexivity.
  - reflexivity.
Qed.

Lemma Transformation_eq (C C' : Matrix3d) (r r' : Vector3d) :
  C = C' -> r = r' -> se3.mkTransformation C r = se3.mkTransformation C' r'.
Proof. now intros -> ->. Qed.

Lemma operator_mul_assign_SO3 (T U : se3.Transformation) :
  SO3 (se3.C_ba_ T) -> SO3 (se3.C_ba_ U) ->
  operator_mul_assign T U =
  se3.mkTransformation
    (mmul (se3.C_ba_ T) (se3.C_ba_ U))
    (vadd (se3.r_ab_inb_ T) (mvmul (se3.C_ba_ T) (se3.r_ab_inb_ U))).
Proof.
  intros HT HU. unfold se3.operator_mul_assign.
  rewrite reproject_false_det_1; [reflexivity |].
  cbn. now apply SO3_mmul.
Qed.

Lemma inverse_SO3 (T : se3.Transformation) :
  SO3 (se3.C_ba_ T) ->
  inverse T =
  se3.mkTransformation
    (transpose (se3.C_ba_ T))
    (mvmul (mscale (-1) (transpose (se3.C_ba_ T))) (se3.r_ab_inb_ T)).
Proof.
  intros HT. unfold se3.inverse.
  rewrite reproject_false_det_1; [reflexivity |].
  cbn. rewrite determinant_transpose. apply HT.
Qed.

(** C6: for a transformation whose rotation is in SO(3), [T * T.inverse()] is
    the identity transformation. *)
Theorem operator_mul_inverse (T : se3.Transformation) :
  SO3 (se3.C_ba_ T) ->
  operator_mul T (inverse T) = se3.Transformation_default.
Proof.
  intros HT. unfold se3.operator_mul, se3.Transformation_copy.
  rewrite operator_mul_assign_SO3.
  - rewrite inverse_SO3 by exact HT. cbn [se3.C_ba_ se3.r_ab_inb_].
    unfold se3.Transformation_default. apply Transformation_eq.
    + now apply SO3_transpose_right.
    + pose proof (SO3_transpose_right _ HT) as Hr.
      destruct T as [C r]; cbn [se3.C_ba_ se3.r_ab_inb_] in *.
      assert (E : mvmul C (mvmul (mscale (-1) (transpose C)) r)
                  = mvmul (mscale (-1) (mmul C (transpose C))) r).
      { rewrite <- mvmul_mmul, mscale_mmul_r. reflexivity. }
      rewrite E, Hr. by_coefficients.
  - exact HT.
  - rewrite inverse_SO3 by exact HT. cbn. now apply SO3_transpose.
Qed.


(** C8: the constructor from a 4x4 matrix depends on the top three rows of its
    argument only. *)
Theorem Transformation_of_Matrix4d_top_rows (T U : Matrix4d) :
  same_top_three_rows T U ->
  Transformation_of_Matrix4d T = Transformation_of_Matrix4d U.
Proof.
  intros H. unfold se3.Transformation_of_Matrix4d.
  assert (E33 : block33 T = block33 U).
  { destruct T, U; unfold same_top_three_rows in H; cbn in *.
    unfold block33; cbn. intuition congruence. }
  assert (E31 : block31 T = block31 U).
  { destruct T, U; unfold same_top_three_rows in H; cbn in *.
    unfold block31; cbn. intuition congruence. }
  now rewrite E33, E31.
Qed.

(** *** Preservation of SO(3) *)

Lemma reproject_SO3 (force : bool) (T : se3.Transformation) :
  (forall aaxis, SO3 (vec2rot aaxis 0)) ->
  SO3 (se3.C_ba_ T) -> SO3 (se3.C_ba_ (reproject force T)).
Proof.
  intros Hexp HT. unfold se3.reproject.
  destruct (force || Rgtb (Rabs (1 - determinant (se3.C_ba_ T))) 1e-6).
  - cbn. apply Hexp.
  - exact HT.
Qed.

Lemma Transformation_copy_id (T : se3.Transformation) :
  se3.Transformation_copy T = T.
Proof. now destruct T. Qed.

Lemma operator_div_assign_SO3 (T U : se3.Transformation) :
  SO3 (se3.C_ba_ T) -> SO3 (se3.C_ba_ U) ->
  SO3 (se3.C_ba_ (operator_div_assign T U)).
Proof.
  intros HT HU. unfold se3.operator_div_assign.
  rewrite reproject_false_det_1; cbn.
  - apply SO3_mmul; [exact HT | now apply SO3_transpose].
  - apply SO3_mmul; [exact HT | now apply SO3_transpose].
Qed.

Lemma reachable_SO3 (T : se3.Transformation) :
  (forall aaxis, SO3 (vec2rot aaxis 0)) ->
  se3.reachable vec2rot rot2vec T -> SO3 (se3.C_ba_ T).
Proof.
  intros Hexp H.
  induction H as [T HT | T U _ IHT _ IHU | T U _ IHT _ IHU
                 | T U _ IHT _ IHU | T U _ IHT _ IHU | T _ IHT | T force _ IHT].
  - exact HT.
  - rewrite operator_mul_assign_SO3 by assumption. cbn. now apply SO3_mmul.
  - unfold se3.operator_mul. rewrite Transformation_copy_id.
    rewrite operator_mul_assign_SO3 by assumption. cbn. now apply SO3_mmul.
  - now apply operator_div_assign_SO3.
  - unfold se3.operator_div. rewrite Transformation_copy_id.
    now apply operator_div_assign_SO3.
  - rewrite inverse_SO3 by assumption. cbn. now apply SO3_transpose.
  - now apply reproject_SO3.
Qed.

(** The neutral element of [Transformation]. *)
Lemma operator_mul_default_r (T : se3.Transformation) :
  SO3 (se3.C_ba_ T) -> operator_mul T se3.Transformation_default = T.
Proof.
  intros HT. unfold se3.operator_mul. rewrite Transformation_copy_id.
  rewrite operator_mul_assign_SO3; [| exact HT | apply SO3_Identity3].
  destruct T as [C r]. cbn.
  apply Transformation_eq.
  - apply mmul_Identity3_r.
  - rewrite mvmul_Zero3. apply vadd_Zero3_r.
Qed.

Lemma operator_mul_default_l (T : se3.Transformation) :
  SO3 (se3.C_ba_ T) -> operator_mul se3.Transformation_default T = T.
Proof.
  intros HT. unfold se3.operator_mul. rewrite Transformation_copy_id.
  rewrite operator_mul_assign_SO3; [| apply SO3_Identity3 | exact HT].
  destruct T as [C r]. cbn.
  apply Transformation_eq.
  - apply mmul_Identity3_l.
  - rewrite mvmul_Identity3. apply vadd_Zero3_l.
Qed.

End TransformationProperties.

(** ** The operations of [Rotation] *)

Section RotationProperties.

Lemma Rotation_copy_id (C : so3.Rotation) : so3.Rotation_copy C = C.
Proof. now destruct C. Qed.

(** C9: the composition operators of [Rotation] store the plain matrix
    product, for every pair of stored matrices, orthonormal or not: [*=] and
    [*] store [C_lhs * C_rhs], [/=] and [/] store [C_lhs * C_rhs^T]. *)
Theorem Rotation_operators_plain_product (C_lhs C_rhs : so3.Rotation) :
  so3.matrix (so3.operator_mul_assign C_lhs C_rhs)
    = mmul (so3.matrix C_lhs) (so3.matrix C_rhs)
  /\ so3.matrix (so3.operator_mul C_lhs C_rhs)
    = mmul (so3.matrix C_lhs) (so3.matrix C_rhs)
  /\ so3.matrix (so3.operator_div_assign C_lhs C_rhs)
    = mmul (so3.matrix C_lhs) (transpose (so3.matrix C_rhs))
  /\ so3.matrix (so3.operator_div C_lhs C_rhs)
    = mmul (so3.matrix C_lhs) (transpose (so3.matrix C_rhs)).
Proof. repeat split. Qed.

(** A matrix that is not a rotation goes through unchanged: twice the
    identity times itself is four times the identity, of determinant 64. *)
Example Rotation_operator_mul_no_correction :
  let D := so3.mkRotation (mscale 2 Identity3) in
  so3.matrix (so3.operator_mul D D) = mscale 4 Identity3
  /\ determinant (so3.matrix (so3.operator_mul D D)) = 64.
Proof.
  split.
  - cbv [so3.matrix so3.operator_mul so3.operator_mul_assign
         so3.Rotation_copy so3.C_ba_].
    by_coefficients.
  - cbv [so3.matrix so3.operator_mul so3.operator_mul_assign
         so3.Rotation_copy so3.C_ba_].
    coeffs. ring.
Qed.

Lemma Rotation_operator_mul_default_r (C : so3.Rotation) :
  so3.operator_mul C so3.Rotation_default = C.
Proof.
  destruct C as [C].
  unfold so3.operator_mul, so3.operator_mul_assign, so3.Rotation_default.
  cbn. now rewrite mmul_Identity3_r.
Qed.

Lemma Rotation_operator_mul_default_l (C : so3.Rotation) :
  so3.operator_mul so3.Rotation_default C = C.
Proof.
  destruct C as [C].
  unfold so3.operator_mul, so3.operator_mul_assign, so3.Rotation_default.
  cbn. now rewrite mmul_Identity3_l.
Qed.

Variable vec2rot : Vector3d -> nat -> Matrix3d.
Variable rot2vec : Matrix3d -> Vector3d.

(** C10: the default-constructed [Rotation] holds the identity matrix and the
    default-constructed [Transformation] holds the identity matrix and the
    zero translation; each is neutral on both sides for [*], for every
    [Rotation] and for every [Transformation] whose rotation is in SO(3). *)
Theorem default_constructed_is_neutral :
  so3.matrix so3.Rotation_default = Identity3
  /\ se3.Transformation_default = se3.mkTransformation Identity3 Zero3
  /\ (forall C : so3.Rotation,
        so3.operator_mul C so3.Rotation_default = C
        /\ so3.operator_mul so3.Rotation_default C = C)
  /\ (forall T : se3.Transformation,
        SO3 (se3.C_ba_ T) ->
        se3.operator_mul vec2rot rot2vec T se3.Transformation_default = T
        /\ se3.operator_mul vec2rot rot2vec se3.Transformation_default T = T).
Proof.
  split; [reflexivity |]. split; [reflexivity |]. split.
  - intros C. split.
    + apply Rotation_operator_mul_default_r.
    + apply Rotation_operator_mul_default_l.
  - intros T HT. split.
    + now apply operator_mul_default_r.
    + now apply operator_mul_default_l.
Qed.

Lemma Rotation_reachable_SO3 (C : so3.Rotation) :
  (forall aaxis, SO3 (vec2rot aaxis 0)) ->
  so3.reachable vec2rot rot2vec C -> SO3 (so3.C_ba_ C).
Proof.
  intros Hexp H.
  induction H as [C HC | C D _ IHC _ IHD | C D _ IHC _ IHD
                 | C D _ IHC _ IHD | C D _ IHC _ IHD | C _ IHC
                 | C reproj _ IHC].
  - exact HC.
  - cbn. now apply SO3_mmul.
  - cbn. now apply SO3_mmul.
  - cbn. apply SO3_mmul; [exact IHC | now apply SO3_transpose].
  - cbn. apply SO3_mmul; [exact IHC | now apply SO3_transpose].
  - cbn. now apply SO3_transpose.
  - destruct reproj; cbn; [apply Hexp | exact IHC].
Qed.

(** C7: if [vec2rot] returns matrices of SO(3), every [Rotation] and every
    [Transformation] reached from valid ones by [*=], [*], [/=], [/],
    [inverse] and reprojection holds a matrix with [Ct * C = I] and
    [det C = 1]. *)
Theorem SO3_is_invariant :
  (forall aaxis, SO3 (vec2rot aaxis 0)) ->
  (forall C : so3.Rotation,
     so3.reachable vec2rot rot2vec C ->
     mmul (transpose (so3.C_ba_ C)) (so3.C_ba_ C) = Identity3
     /\ determinant (so3.C_ba_ C) = 1)
  /\
  (forall T : se3.Transformation,
     se3.reachable vec2rot rot2vec T ->
     mmul (transpose (se3.C_ba_ T)) (se3.C_ba_ T) = Identity3
     /\ determinant (se3.C_ba_ T) = 1).
Proof.
  intros Hexp. split.
  - intros C HC. now apply Rotation_reachable_SO3.
  - intros T HT. now apply (reachable_SO3 vec2rot rot2vec).
Qed.

End RotationProperties.

(** ** The dimension-checked constructors *)

Section ConstructorProperties.

Variable vec2rot : Vector3d -> nat -> Matrix3d.
Variable vec2tran : Vector6d -> nat -> Matrix3d * Vector3d.

Lemma Rotation_of_VectorXd_bad (v : VectorXd) :
  rows v <> 3%nat ->
  exists what,
    so3.Rotation_of_VectorXd vec2rot v = ([], inl (std.logic_error what)).
Proof.
  intros H. unfold so3.Rotation_of_VectorXd.
  apply Nat.eqb_neq in H. rewrite H. cbn. eexists. reflexivity.
Qed.

Lemma Rotation_of_VectorXd_good (v : VectorXd) :
  rows v = 3%nat ->
  so3.Rotation_of_VectorXd vec2rot v =
  ([call_vec2rot (toVector3d v) 0],
   inr (so3.mkRotation (vec2rot (toVector3d v) 0))).
Proof.
  intros H. unfold so3.Rotation_of_VectorXd.
  apply Nat.eqb_eq in H. rewrite H. reflexivity.
Qed.

Lemma Transformation_of_VectorXd_bad (v : VectorXd) :
  rows v <> 6%nat ->
  exists what,
    se3.Transformation_of_VectorXd vec2tran v =
    ([], inl (std.invalid_argument what)).
Proof.
  intros H. unfold se3.Transformation_of_VectorXd.
  apply Nat.eqb_neq in H. rewrite H. cbn. eexists. reflexivity.
Qed.

Lemma Transformation_of_VectorXd_good (v : VectorXd) :
  rows v = 6%nat ->
  se3.Transformation_of_VectorXd vec2tran v =
  ([call_vec2tran (toVector6d v) 0],
   inr (se3.mkTransformation (fst (vec2tran (toVector6d v) 0))
                             (snd (vec2tran (toVector6d v) 0)))).
Proof.
  intros H. unfold se3.Transformation_of_VectorXd.
  apply Nat.eqb_eq in H. rewrite H. reflexivity.
Qed.

(** C3: each dimension-checked constructor fails if and only if the vector
    does not have the required number of rows, 3 for [Rotation] and 6 for
    [Transformation]; the failure is the exception thrown by the check on the
    argument, an object of the [std::logic_error] family, and no exponential
    map has been called when it is thrown. *)
Theorem VectorXd_constructors_dimension_check (v : VectorXd) :
  ((exists e, outcome (so3.Rotation_of_VectorXd vec2rot v) = inl e)
   <-> rows v <> 3%nat)
  /\ (rows v <> 3%nat ->
      calls (so3.Rotation_of_VectorXd vec2rot v) = []
      /\ exists e,
           outcome (so3.Rotation_of_VectorXd vec2rot v) = inl e
           /\ std.is_logic_error e = true)
  /\ ((exists e, outcome (se3.Transformation_of_VectorXd vec2tran v) = inl e)
      <-> rows v <> 6%nat)
  /\ (rows v <> 6%nat ->
      calls (se3.Transformation_of_VectorXd vec2tran v) = []
      /\ exists e,
           outcome (se3.Transformation_of_VectorXd vec2tran v) = inl e
           /\ std.is_logic_error e = true).
Proof.
  split; [| split; [| split]].
  - split.
    + intros [e He] Hrows.
      rewrite (Rotation_of_VectorXd_good v Hrows) in He. discriminate.
    + intros Hrows.
      destruct (Rotation_of_VectorXd_bad v Hrows) as [what ->].
      eexists. reflexivity.
  - intros Hrows.
    destruct (Rotation_of_VectorXd_bad v Hrows) as [what ->].
    split; [reflexivity |]. eexists. split; reflexivity.
  - split.
    + intros [e He] Hrows.
      rewrite (Transformation_of_VectorXd_good v Hrows) in He. discriminate.
    + intros Hrows.
      destruct (Transformation_of_VectorXd_bad v Hrows) as [what ->].
      eexists. reflexivity.
  - intros Hrows.
    destruct (Transformation_of_VectorXd_bad v Hrows) as [what ->].
    split; [reflexivity |]. eexists. split; reflexivity.
Qed.

(** A rotation from a vector of 4 rows and a transformation from a vector
    of 5 rows: both constructors throw, with no call made. *)
Example dimension_errors_4_and_5_rows :
  so3.Rotation_of_VectorXd vec2rot [1; 2; 3; 4]
  = ([], inl (std.logic_error
       "Tried to initialize a rotation from a VectorXd that was not dimension 3"))
  /\ se3.Transformation_of_VectorXd vec2tran [1; 2; 3; 4; 5]
     = ([], inl (std.invalid_argument
       "Tried to initialize a transformation from a VectorXd that was not dimension 6")).
Proof. split; reflexivity. Qed.

End ConstructorProperties.

(** ** The exponential and the logarithm of SO(3) *)

Import Operations.

Ltac map_coeffs :=
  cbv [rodrigues hat vee msub half_turn]; coeffs.

Lemma Rltb_false (a b : R) : b <= a -> Rltb a b = false.
Proof. intros H. unfold Rltb. destruct (Rlt_dec a b); [lra | reflexivity]. Qed.

Lemma Rltb_true (a b : R) : a < b -> Rltb a b = true.
Proof. intros H. unfold Rltb. destruct (Rlt_dec a b); [reflexivity | lra]. Qed.

Lemma Rleb_true_intro (a b : R) : a <= b -> Rleb a b = true.
Proof. intros H. unfold Rleb. destruct (Rle_dec a b); [reflexivity | lra]. Qed.

Lemma clamp_id (x : R) : -1 <= x <= 1 -> clamp x = x.
Proof.
  intros [Hlo Hhi]. unfold clamp.
  rewrite (Rmin_right 1 x) by exact Hhi.
  apply Rmax_right. exact Hlo.
Qed.

Lemma acos_minus_1 : acos (-1) = PI.
Proof.
  replace (-1) with (- (1)) by lra.
  rewrite acos_opp, acos_1. ring.
Qed.

Lemma squaredNorm_nonneg (v : Vector3d) : 0 <= squaredNorm v.
Proof. destruct v as [x y z]. coeffs. nra. Qed.

Lemma norm_squared (v : Vector3d) : norm v * norm v = squaredNorm v.
Proof. unfold norm. apply sqrt_sqrt, squaredNorm_nonneg. Qed.




Lemma vscale_0 (v : Vector3d) : vscale v 0 = Zero3.
Proof. by_coefficients. Qed.

(** *** Rodrigues' formula, for any two coefficients *)

Lemma trace_rodrigues (a b : R) (phi : Vector3d) :
  trace (rodrigues a b phi) = 3 - 2 * b * squaredNorm phi.
Proof. destruct phi. map_coeffs. ring. Qed.

Lemma vee_rodrigues (a b : R) (phi : Vector3d) :
  vee (msub (rodrigues a b phi) (transpose (rodrigues a b phi)))
  = vscale phi (2 * a).
Proof. destruct phi. map_coeffs. f_equal; ring. Qed.

Lemma determinant_rodrigues (a b : R) (phi : Vector3d) :
  determinant (rodrigues a b phi)
  = (1 - b * squaredNorm phi) * (1 - b * squaredNorm phi)
    + a * a * squaredNorm phi.
Proof. destruct phi. map_coeffs. ring. Qed.

Lemma orthonormal_rodrigues (a b : R) (phi : Vector3d) :
  2 * b - a * a - b * b * squaredNorm phi = 0 ->
  orthonormal (rodrigues a b phi).
Proof.
  destruct phi as [x y z]. coeffs. intros H.
  unfold orthonormal. map_coeffs.
  f_equal; nsatz.
Qed.

Lemma rodrigues_0_0 (phi : Vector3d) : rodrigues 0 0 phi = Identity3.
Proof. destruct phi. map_coeffs. f_equal; ring. Qed.

(** *** The closed form is a rotation *)

Lemma closed_form_at_0 (phi : Vector3d) :
  rodrigues (sin 0 / 0) ((1 - cos 0) / (0 * 0)) phi = Identity3.
Proof.
  rewrite sin_0, cos_0.
  replace (0 / 0) with 0 by (unfold Rdiv; ring).
  replace ((1 - 1) / (0 * 0)) with 0 by (unfold Rdiv; ring).
  apply rodrigues_0_0.
Qed.

Lemma closed_form_SO3 (phi : Vector3d) :
  SO3 (rodrigues (sin (norm phi) / norm phi)
                 ((1 - cos (norm phi)) / (norm phi * norm phi)) phi).
Proof.
  pose proof (norm_squared phi) as Ht.
  pose proof (sin2_cos2 (norm phi)) as Hsc. unfold Rsqr in Hsc.
  set (theta := norm phi) in *.
  destruct (Req_dec theta 0) as [Hz | Hnz].
  - rewrite Hz, closed_form_at_0. apply SO3_Identity3.
  - split.
    + apply orthonormal_rodrigues. rewrite <- Ht.
      transitivity ((1 - (sin theta * sin theta + cos theta * cos theta))
                    / (theta * theta)).
      * field. exact Hnz.
      * rewrite Hsc. field. exact Hnz.
    + rewrite determinant_rodrigues, <- Ht.
      transitivity (sin theta * sin theta + cos theta * cos theta).
      * field. exact Hnz.
      * exact Hsc.
Qed.

Lemma vec2rot_SO3 (small_tol : R) (phi : Vector3d) :
  SO3 (vec2rot small_tol phi 0).
Proof.
  unfold vec2rot. destruct (Rltb (norm phi) small_tol).
  - apply SO3_Identity3.
  - apply closed_form_SO3.
Qed.

(** *** The fallback of the logarithm on the closed form *)


(** In the next two lemmas [theta] is the norm of the vector, [b] the second
    coefficient of the closed form and [c] the cosine of [theta], strictly
    between -1 and 1. *)





(** *** The three branches of the logarithm *)

Section Logarithm.

Variable small_tol : R.
Variable angle_tol : R.

Local Abbreviation rot2vec := (Operations.rot2vec angle_tol).
Local Abbreviation vec2rot := (Operations.vec2rot small_tol).
Local Abbreviation round_trip := (Operations.round_trip small_tol angle_tol).


Lemma rot2vec_near_pi (R_ab : Matrix3d) (theta : R) :
  acos (clamp ((trace R_ab - 1) / 2)) = theta ->
  angle_tol <= theta -> PI - theta < angle_tol ->
  rot2vec R_ab = vscale (axis_near_pi R_ab) theta.
Proof.
  intros Hth H0 Hpi. unfold Operations.rot2vec. rewrite Hth.
  now rewrite (Rltb_false _ _ H0), (Rltb_true _ _ Hpi).
Qed.

Lemma rot2vec_general (R_ab : Matrix3d) (theta : R) :
  acos (clamp ((trace R_ab - 1) / 2)) = theta ->
  angle_tol <= theta -> angle_tol <= PI - theta ->
  rot2vec R_ab
  = vscale (vee (msub R_ab (transpose R_ab))) (theta / (2 * sin theta)).
Proof.
  intros Hth H0 Hpi. unfold Operations.rot2vec. rewrite Hth.
  now rewrite (Rltb_false _ _ H0), (Rltb_false _ _ Hpi).
Qed.


(** The angle read back from the closed form is the norm of the vector it
    was built from, up to pi. *)
Lemma angle_of_closed_form (phi : Vector3d) :
  0 < norm phi <= PI ->
  acos (clamp ((trace (rodrigues (sin (norm phi) / norm phi)
                         ((1 - cos (norm phi)) / (norm phi * norm phi))
                         phi) - 1) / 2))
  = norm phi.
Proof.
  intros [Hpos Hle].
  rewrite trace_rodrigues, <- norm_squared.
  set (theta := norm phi) in *.
  replace ((3 - 2 * ((1 - cos theta) / (theta * theta)) * (theta * theta) - 1)
           / 2)
    with (cos theta) by (field; lra).
  rewrite clamp_id by apply COS_bound.
  apply acos_cos. lra.
Qed.

Lemma round_trip_unfold (phi : Vector3d) :
  round_trip phi = rot2vec (vec2rot phi 0).
Proof. reflexivity. Qed.



Lemma round_trip_general (phi : Vector3d) :
  0 < norm phi < PI ->
  small_tol <= norm phi ->
  angle_tol <= norm phi -> angle_tol <= PI - norm phi ->
  round_trip phi = phi.
Proof.
  intros [Hpos Hlt] Hs Ha Hp.
  rewrite round_trip_unfold. unfold Operations.vec2rot.
  rewrite (Rltb_false _ _ Hs).
  rewrite (rot2vec_general _ (norm phi)).
  - rewrite vee_rodrigues.
    pose proof (sin_gt_0 _ Hpos Hlt) as Hsin.
    set (theta := norm phi) in *.
    destruct phi as [x y z]. cbv [vscale x0 x1 x2]. f_equal; field; lra.
  - apply angle_of_closed_form. lra.
  - exact Ha.
  - exact Hp.
Qed.


(** *** Just below the angle pi *)





(** *** At the angle pi *)


Lemma closed_form_at_PI (phi : Vector3d) :
  norm phi = PI ->
  rodrigues (sin PI / PI) ((1 - cos PI) / (PI * PI)) phi
  = half_turn (vscale phi (/ PI)).
Proof.
  intros H. pose proof (norm_squared phi) as Hsq. rewrite H in Hsq.
  pose proof PI_neq0 as Hpi.
  rewrite sin_PI, cos_PI.
  destruct phi as [x y z]. unfold squaredNorm in Hsq; cbv [x0 x1 x2] in Hsq.
  map_coeffs.
  f_equal; try (field; exact Hpi).
  - replace (0 * 0 + - z * z + y * - y)
      with (x * x - (x * x + y * y + z * z)) by ring.
    rewrite <- Hsq. field. exact Hpi.
  - replace (z * - z + 0 * 0 + - x * x)
      with (y * y - (x * x + y * y + z * z)) by ring.
    rewrite <- Hsq. field. exact Hpi.
  - replace (- y * y + x * - x + 0 * 0)
      with (z * z - (x * x + y * y + z * z)) by ring.
    rewrite <- Hsq. field. exact Hpi.
Qed.



End Logarithm.


(** ** Instances

    The quarter turn about the z axis, [[0,-1,0],[1,0,0],[0,0,1]], is the
    concrete rotation of section 8 of the specification. *)

Lemma quarter_turn_SO3 : SO3 (mkMatrix3d 0 (-1) 0 1 0 0 0 0 1).
Proof.
  split.
  - unfold orthonormal. coeffs. f_equal; ring.
  - coeffs. ring.
Qed.

(** The exponential of [[0, 0, pi/2]] is the quarter turn about z. *)
Example vec2rot_quarter_turn (small_tol : R) :
  small_tol <= PI / 2 ->
  Operations.vec2rot small_tol (mkVector3d 0 0 (PI / 2)) 0
  = mkMatrix3d 0 (-1) 0 1 0 0 0 0 1.
Proof.
  intros Hs. pose proof PI_RGT_0 as Hpi.
  assert (Hn : norm (mkVector3d 0 0 (PI / 2)) = PI / 2).
  { unfold norm. coeffs.
    replace (0 * 0 + 0 * 0 + PI / 2 * (PI / 2)) with (PI / 2 * (PI / 2))
      by ring.
    apply sqrt_square. lra. }
  unfold Operations.vec2rot. rewrite Hn, (Rltb_false _ _ Hs).
  rewrite sin_PI2, cos_PI2. map_coeffs. f_equal; field; lra.
Qed.

(** The round trip of [[1, 0, 0]], with both tolerances at [1e-9]. *)
Example round_trip_unit_x :
  Operations.round_trip 1e-9 1e-9 (mkVector3d 1 0 0) = mkVector3d 1 0 0.
Proof.
  assert (Hn : norm (mkVector3d 1 0 0) = 1).
  { unfold norm. coeffs.
    replace (1 * 1 + 0 * 0 + 0 * 0) with (1 * 1) by ring.
    apply sqrt_square. lra. }
  pose proof PI2_1 as Hpi.
  apply round_trip_general; rewrite Hn; lra.
Qed.

(** The round trip of [[-pi, 0, 0]] comes back with the opposite sign. *)
Example round_trip_minus_pi_x :
  Operations.round_trip 1e-9 1e-9 (mkVector3d (- PI) 0 0) = mkVector3d PI 0 0.
Proof.
  pose proof PI_RGT_0 as Hpi. pose proof PI2_1 as Hpi2.
  assert (Hn : norm (mkVector3d (- PI) 0 0) = PI).
  { unfold norm. coeffs.
    replace (- PI * - PI + 0 * 0 + 0 * 0) with (PI * PI) by ring.
    apply sqrt_square. lra. }
  rewrite round_trip_unfold. unfold Operations.vec2rot.
  rewrite Hn, Rltb_false by lra.
  rewrite (rot2vec_near_pi _ _ PI).
  - rewrite closed_form_at_PI by exact Hn.
    unfold axis_near_pi. map_coeffs.
    replace (/ 2 * (2 * (- PI * / PI) * (- PI * / PI) - 1 + 1)) with (1 * 1)
      by (field; lra).
    replace (/ 2 * (2 * (0 * / PI) * (0 * / PI) - 1 + 1)) with 0
      by (field; lra).
    rewrite sqrt_square by lra.
    rewrite !Rleb_true_intro by lra. cbn [andb].
    f_equal; field; lra.
  - rewrite trace_rodrigues.
    replace (squaredNorm (mkVector3d (- PI) 0 0)) with (PI * PI)
      by (coeffs; ring).
    rewrite cos_PI.
    replace ((3 - 2 * ((1 - -1) / (PI * PI)) * (PI * PI) - 1) / 2)
      with (-1) by (field; lra).
    rewrite clamp_id by lra. apply acos_minus_1.
  - lra.
  - lra.
Qed.

(** *** The theorems with a hypothesis, at concrete inputs *)


Lemma operator_mul_inverse_witness :
  let vec2rot := Operations.vec2rot 1e-9 in
  let rot2vec := Operations.rot2vec 1e-9 in
  let T :=
    se3.mkTransformation (mkMatrix3d 0 (-1) 0 1 0 0 0 0 1)
                         (mkVector3d 1 2 3) in
  SO3 (se3.C_ba_ T)
  /\ se3.operator_mul vec2rot rot2vec T (se3.inverse vec2rot rot2vec T)
     = se3.Transformation_default.
Proof.
  intros vec2rot rot2vec T.
  split.
  - exact quarter_turn_SO3.
  - apply (operator_mul_inverse vec2rot rot2vec T). exact quarter_turn_SO3.
Defined.

Lemma Transformation_of_Matrix4d_top_rows_witness :
  let vec2rot := Operations.vec2rot 1e-9 in
  let rot2vec := Operations.rot2vec 1e-9 in
  let T := Identity4 in
  let U := mkMatrix4d 1 0 0 0
                      0 1 0 0
                      0 0 1 0
                      5 6 7 8 in
  same_top_three_rows T U
  /\ se3.Transformation_of_Matrix4d vec2rot rot2vec T
     = se3.Transformation_of_Matrix4d vec2rot rot2vec U.
Proof.
  intros vec2rot rot2vec T U.
  assert (H : same_top_three_rows T U).
  { unfold same_top_three_rows, T, U. coeffs. repeat split. }
  split.
  - exact H.
  - apply (Transformation_of_Matrix4d_top_rows vec2rot rot2vec T U). exact H.
Defined.

Lemma SO3_is_invariant_witness :
  let vec2rot := Operations.vec2rot 1e-9 in
  let rot2vec := Operations.rot2vec 1e-9 in
  let C := so3.mkRotation (mkMatrix3d 0 (-1) 0 1 0 0 0 0 1) in
  let T :=
    se3.mkTransformation (mkMatrix3d 0 (-1) 0 1 0 0 0 0 1)
                         (mkVector3d 1 2 3) in
  let C' :=
    so3.Rotation_of_Matrix3d vec2rot rot2vec
      (so3.C_ba_ (so3.operator_div (so3.operator_mul C C) (so3.inverse C)))
      true in
  let T' :=
    se3.reproject vec2rot rot2vec true
      (se3.operator_div vec2rot rot2vec
         (se3.operator_mul vec2rot rot2vec T T)
         (se3.inverse vec2rot rot2vec T)) in
  (forall aaxis, SO3 (vec2rot aaxis 0%nat))
  /\ (mmul (transpose (so3.C_ba_ C')) (so3.C_ba_ C') = Identity3
      /\ determinant (so3.C_ba_ C') = 1)
  /\ (mmul (transpose (se3.C_ba_ T')) (se3.C_ba_ T') = Identity3
      /\ determinant (se3.C_ba_ T') = 1).
Proof.
  intros vec2rot rot2vec C T C' T'.
  assert (Hexp : forall aaxis, SO3 (vec2rot aaxis 0%nat)).
  { intros aaxis. apply vec2rot_SO3. }
  destruct (SO3_is_invariant vec2rot rot2vec Hexp) as [HR HT].
  split; [exact Hexp |]. split.
  - apply HR.
    apply so3.reach_reproject, so3.reach_div.
    + apply so3.reach_mul; apply so3.reach_valid; exact quarter_turn_SO3.
    + apply so3.reach_inverse, so3.reach_valid. exact quarter_turn_SO3.
  - apply HT.
    apply se3.reach_reproject, se3.reach_div.
    + apply se3.reach_mul; apply se3.reach_valid; exact quarter_turn_SO3.
    + apply se3.reach_inverse, se3.reach_valid. exact quarter_turn_SO3.
Defined.

(** The default transformation is not neutral off SO(3).  With the maps of
    the specification, composing the transformation that holds twice the
    identity with the default one triggers the reprojection, and the result
    holds a matrix of determinant 1 instead of 8. *)
Remark default_not_neutral_off_SO3 :
  let vec2rot := Operations.vec2rot 1e-9 in
  let rot2vec := Operations.rot2vec 1e-9 in
  let T := se3.mkTransformation (mscale 2 Identity3) Zero3 in
  se3.operator_mul vec2rot rot2vec T se3.Transformation_default <> T.
Proof.
  intros vec2rot rot2vec T H.
  assert (Hdet : determinant
            (se3.C_ba_ (se3.operator_mul vec2rot rot2vec T
                          se3.Transformation_default)) = 1).
  { unfold se3.operator_mul, se3.operator_mul_assign.
    rewrite reproject_fires.
    - cbn [se3.C_ba_]. apply vec2rot_SO3.
    - cbn [orb se3.C_ba_ se3.r_ab_inb_ se3.set_C_ba_ se3.set_r_ab_inb_
           se3.Transformation_copy se3.Transformation_default T].
      apply Rgtb_true.
      replace (determinant (mmul (mscale 2 Identity3) Identity3)) with 8
        by (coeffs; ring).
      replace (1 - 8) with (- (7)) by ring.
      rewrite Rabs_Ropp, Rabs_right; lra. }
  rewrite H in Hdet. unfold T in Hdet. cbn [se3.C_ba_] in Hdet.
  revert Hdet. coeffs. lra.
Qed.

(** * Further properties of the two classes *)

(** ** [Rotation] *)

Lemma Rotation_eq (C D : Matrix3d) :
  C = D -> so3.mkRotation C = so3.mkRotation D.
Proof. now intros ->. Qed.

Lemma orthonormal_coefficients (C : Matrix3d) :
  orthonormal C ->
  c00 C * c00 C + c10 C * c10 C + c20 C * c20 C = 1
  /\ c00 C * c01 C + c10 C * c11 C + c20 C * c21 C = 0
  /\ c00 C * c02 C + c10 C * c12 C + c20 C * c22 C = 0
  /\ c01 C * c01 C + c11 C * c11 C + c21 C * c21 C = 1
  /\ c01 C * c02 C + c11 C * c12 C + c21 C * c22 C = 0
  /\ c02 C * c02 C + c12 C * c12 C + c22 C * c22 C = 1.
Proof.
  destruct C. unfold orthonormal. coeffs. intros H.
  injection H as E00 E01 E02 E10 E11 E12 E20 E21 E22.
  repeat split; assumption.
Qed.

(** An orthonormal matrix preserves the squared norm. *)
Lemma orthonormal_squaredNorm (C : Matrix3d) (p : Vector3d) :
  orthonormal C -> squaredNorm (mvmul C p) = squaredNorm p.
Proof.
  intros H. apply orthonormal_coefficients in H.
  destruct H as (E00 & E01 & E02 & E11 & E12 & E22).
  destruct C, p. revert E00 E01 E02 E11 E12 E22. coeffs. intros.
  nsatz.
Qed.

Lemma orthonormal_mvmul_cancel (C : Matrix3d) (p : Vector3d) :
  orthonormal C -> mvmul (transpose C) (mvmul C p) = p.
Proof.
  intros H. rewrite <- mvmul_mmul. unfold orthonormal in H. rewrite H.
  apply mvmul_Identity3.
Qed.

(** X1: [inverse] is an involution on every [Rotation], whatever matrix it
    holds. *)
Theorem Rotation_inverse_involutive (C : so3.Rotation) :
  so3.inverse (so3.inverse C) = C.
Proof.
  destruct C as [C]. unfold so3.inverse. cbn [so3.C_ba_].
  apply Rotation_eq, transpose_transpose.
Qed.

(** X2: the composition [*] of [Rotation] is associative, exactly, for all
    stored matrices. *)
Theorem Rotation_operator_mul_assoc (A B C : so3.Rotation) :
  so3.operator_mul (so3.operator_mul A B) C
  = so3.operator_mul A (so3.operator_mul B C).
Proof.
  destruct A as [A], B as [B], C as [C].
  unfold so3.operator_mul, so3.operator_mul_assign, so3.Rotation_copy.
  cbn [so3.C_ba_]. apply Rotation_eq, mmul_assoc.
Qed.

(** X3: [A / B] and [A /= B] give the same object as [A * B.inverse()]. *)
Theorem Rotation_operator_div_is_mul_inverse (A B : so3.Rotation) :
  so3.operator_div A B = so3.operator_mul A (so3.inverse B)
  /\ so3.operator_div_assign A B = so3.operator_mul A (so3.inverse B).
Proof. split; reflexivity. Qed.

(** X4: the inverse of a product is the product of the inverses in the
    opposite order. *)
Theorem Rotation_inverse_operator_mul (A B : so3.Rotation) :
  so3.inverse (so3.operator_mul A B)
  = so3.operator_mul (so3.inverse B) (so3.inverse A).
Proof.
  destruct A as [A], B as [B].
  unfold so3.inverse, so3.operator_mul, so3.operator_mul_assign,
    so3.Rotation_copy.
  cbn [so3.C_ba_]. apply Rotation_eq, transpose_mmul.
Qed.

(** X5: a [Rotation] that holds a matrix of SO(3) is cancelled by its
    [inverse] on both sides. *)
Theorem Rotation_inverse_cancels (C : so3.Rotation) :
  SO3 (so3.C_ba_ C) ->
  so3.operator_mul C (so3.inverse C) = so3.Rotation_default
  /\ so3.operator_mul (so3.inverse C) C = so3.Rotation_default.
Proof.
  intros H. destruct C as [C]. cbn [so3.C_ba_] in H.
  unfold so3.inverse, so3.operator_mul, so3.operator_mul_assign,
    so3.Rotation_copy, so3.Rotation_default.
  cbn [so3.C_ba_]. split; apply Rotation_eq.
  - now apply SO3_transpose_right.
  - apply H.
Qed.

(** X6: [*] on a point is an action: [(A * B) * p = A * (B * p)] and
    [Rotation() * p = p]. *)
Theorem Rotation_operator_mul_point_action
  (A B : so3.Rotation) (p : Vector3d) :
  so3.operator_mul_point (so3.operator_mul A B) p
  = so3.operator_mul_point A (so3.operator_mul_point B p)
  /\ so3.operator_mul_point so3.Rotation_default p = p.
Proof.
  split.
  - unfold so3.operator_mul_point, so3.operator_mul, so3.operator_mul_assign,
      so3.Rotation_copy.
    cbn [so3.C_ba_]. apply mvmul_mmul.
  - unfold so3.operator_mul_point, so3.Rotation_default. cbn [so3.C_ba_].
    apply mvmul_Identity3.
Qed.

(** X7: a [Rotation] that holds an orthonormal matrix preserves the norm of
    the points it is applied to, and its [inverse] undoes it on points. *)
Theorem Rotation_operator_mul_point_isometry
  (C : so3.Rotation) (p : Vector3d) :
  orthonormal (so3.C_ba_ C) ->
  norm (so3.operator_mul_point C p) = norm p
  /\ so3.operator_mul_point (so3.inverse C) (so3.operator_mul_point C p) = p.
Proof.
  intros H. split.
  - unfold norm, so3.operator_mul_point.
    now rewrite orthonormal_squaredNorm.
  - unfold so3.operator_mul_point, so3.inverse. cbn [so3.C_ba_].
    now apply orthonormal_mvmul_cancel.
Qed.

(** ** [Transformation] *)

Ltac coeffs4 := cbv [m4mul vsub bottom_row_0001]; coeffs.

Section TransformationFurther.

Variable vec2rot : Vector3d -> nat -> Matrix3d.
Variable rot2vec : Matrix3d -> Vector3d.

Local Abbreviation reproject := (se3.reproject vec2rot rot2vec).
Local Abbreviation inverse := (se3.inverse vec2rot rot2vec).
Local Abbreviation operator_mul_assign :=
  (se3.operator_mul_assign vec2rot rot2vec).
Local Abbreviation operator_mul := (se3.operator_mul vec2rot rot2vec).
Local Abbreviation operator_div_assign :=
  (se3.operator_div_assign vec2rot rot2vec).
Local Abbreviation operator_div := (se3.operator_div vec2rot rot2vec).
Local Abbreviation Transformation_of_Matrix4d :=
  (se3.Transformation_of_Matrix4d vec2rot rot2vec).
Local Abbreviation Transformation_of_C_ba_r_ba_ina :=
  (se3.Transformation_of_C_ba_r_ba_ina vec2rot rot2vec).

Lemma no_drift_det_1 (C : Matrix3d) : determinant C = 1 -> se3.no_drift C.
Proof.
  intros H. unfold se3.no_drift. rewrite H.
  replace (1 - 1) with 0 by ring. rewrite Rabs_R0. lra.
Qed.

Lemma reproject_false_no_drift (T : se3.Transformation) :
  se3.no_drift (se3.C_ba_ T) -> reproject false T = T.
Proof.
  intros H. apply reproject_skips. cbn [orb]. now apply Rgtb_false.
Qed.

Lemma reproject_cases (force : bool) (T : se3.Transformation) :
  reproject force T = T
  \/ reproject force T
     = se3.set_C_ba_ T (vec2rot (rot2vec (se3.C_ba_ T)) 0).
Proof.
  unfold se3.reproject.
  destruct (force || Rgtb (Rabs (1 - determinant (se3.C_ba_ T))) 1e-6);
    [now right | now left].
Qed.

Lemma reproject_translation (force : bool) (C : Matrix3d) (r : Vector3d) :
  se3.r_ab_inb_ (reproject force (se3.mkTransformation C r)) = r.
Proof.
  destruct (reproject_cases force (se3.mkTransformation C r)) as [-> | ->];
    reflexivity.
Qed.

Lemma operator_mul_unfold (T U : se3.Transformation) :
  operator_mul T U =
  reproject false
    (se3.mkTransformation
       (mmul (se3.C_ba_ T) (se3.C_ba_ U))
       (vadd (se3.r_ab_inb_ T) (mvmul (se3.C_ba_ T) (se3.r_ab_inb_ U)))).
Proof. reflexivity. Qed.

Lemma operator_div_unfold (T U : se3.Transformation) :
  operator_div T U =
  reproject false
    (se3.mkTransformation
       (mmul (se3.C_ba_ T) (transpose (se3.C_ba_ U)))
       (vadd (se3.r_ab_inb_ T)
             (mvmul (mscale (-1)
                            (mmul (se3.C_ba_ T) (transpose (se3.C_ba_ U))))
                    (se3.r_ab_inb_ U)))).
Proof. reflexivity. Qed.

Lemma inverse_unfold (T : se3.Transformation) :
  inverse T =
  let temp :=
    reproject false
      (se3.mkTransformation (transpose (se3.C_ba_ T)) Zero3) in
  se3.mkTransformation
    (se3.C_ba_ temp)
    (mvmul (mscale (-1) (se3.C_ba_ temp)) (se3.r_ab_inb_ T)).
Proof. reflexivity. Qed.

Lemma inverse_no_drift_eq (T : se3.Transformation) :
  se3.no_drift (se3.C_ba_ T) ->
  inverse T =
  se3.mkTransformation
    (transpose (se3.C_ba_ T))
    (mvmul (mscale (-1) (transpose (se3.C_ba_ T))) (se3.r_ab_inb_ T)).
Proof.
  intros H. rewrite inverse_unfold.
  rewrite reproject_false_no_drift; [reflexivity |].
  cbn [se3.C_ba_]. unfold se3.no_drift. now rewrite determinant_transpose.
Qed.

Lemma operator_mul_no_drift_eq (T U : se3.Transformation) :
  se3.no_drift (mmul (se3.C_ba_ T) (se3.C_ba_ U)) ->
  operator_mul T U =
  se3.mkTransformation
    (mmul (se3.C_ba_ T) (se3.C_ba_ U))
    (vadd (se3.r_ab_inb_ T) (mvmul (se3.C_ba_ T) (se3.r_ab_inb_ U))).
Proof.
  intros H. rewrite operator_mul_unfold.
  now apply reproject_false_no_drift.
Qed.

(** X8: the translation of a composition does not depend on the
    reprojection: [*] and [*=] store [r_lhs + C_lhs * r_rhs], [/] and [/=]
    store [r_lhs - (C_lhs * C_rhs^T) * r_rhs], with the rotations as they were
    before the reprojection, for all operands and all maps. *)
Theorem composition_translation (T U : se3.Transformation) :
  se3.r_ab_inb_ (operator_mul T U)
  = vadd (se3.r_ab_inb_ T) (mvmul (se3.C_ba_ T) (se3.r_ab_inb_ U))
  /\ se3.r_ab_inb_ (operator_mul_assign T U)
     = vadd (se3.r_ab_inb_ T) (mvmul (se3.C_ba_ T) (se3.r_ab_inb_ U))
  /\ se3.r_ab_inb_ (operator_div T U)
     = vadd (se3.r_ab_inb_ T)
            (mvmul (mscale (-1)
                           (mmul (se3.C_ba_ T) (transpose (se3.C_ba_ U))))
                   (se3.r_ab_inb_ U))
  /\ se3.r_ab_inb_ (operator_div_assign T U)
     = vadd (se3.r_ab_inb_ T)
            (mvmul (mscale (-1)
                           (mmul (se3.C_ba_ T) (transpose (se3.C_ba_ U))))
                   (se3.r_ab_inb_ U)).
Proof.
  repeat split.
  - rewrite operator_mul_unfold. apply reproject_translation.
  - unfold se3.operator_mul_assign. apply reproject_translation.
  - rewrite operator_div_unfold. apply reproject_translation.
  - unfold se3.operator_div_assign. apply reproject_translation.
Qed.

(** The translation of [T.inverse()] is minus the rotation that the inverse
    stores, reprojected or not, times the translation of [T]. *)
Lemma inverse_translation (T : se3.Transformation) :
  se3.r_ab_inb_ (inverse T)
  = mvmul (mscale (-1) (se3.C_ba_ (inverse T))) (se3.r_ab_inb_ T).
Proof. rewrite inverse_unfold. reflexivity. Qed.

(** X10: when the determinant of the rotation is within [1e-6] of 1,
    [T.inverse()] holds the transpose of the rotation and the forward
    translation [T.r_ba_ina()]. *)
Theorem inverse_within_tolerance (T : se3.Transformation) :
  Rabs (1 - determinant (se3.C_ba_ T)) <= 1e-6 ->
  se3.C_ba (inverse T) = transpose (se3.C_ba T)
  /\ se3.r_ab_inb (inverse T) = se3.r_ba_ina T.
Proof.
  intros H. rewrite (inverse_no_drift_eq T H). split; reflexivity.
Qed.

(** X11: building a transformation from [T.matrix()] is the conditional
    reprojection of [T]; it gives [T] back when the determinant of its
    rotation is within [1e-6] of 1.  The bottom row of [T.matrix()] is
    [0 0 0 1]. *)
Theorem Transformation_of_matrix (T : se3.Transformation) :
  Transformation_of_Matrix4d (se3.matrix T) = reproject false T
  /\ (Rabs (1 - determinant (se3.C_ba_ T)) <= 1e-6 ->
      Transformation_of_Matrix4d (se3.matrix T) = T)
  /\ bottom_row_0001 (se3.matrix T).
Proof.
  assert (E : Transformation_of_Matrix4d (se3.matrix T) = reproject false T).
  { destruct T as [[] []]. reflexivity. }
  split; [exact E |]. split.
  - intros H. rewrite E. now apply reproject_false_no_drift.
  - destruct T as [[] []]. unfold se3.matrix. coeffs4. repeat split.
Qed.

(** X12: a 4x4 matrix whose bottom row is [0 0 0 1] and whose rotation block
    has a determinant within [1e-6] of 1 is given back by [matrix()] after
    construction. *)
Theorem matrix_of_Transformation (M : Matrix4d) :
  bottom_row_0001 M ->
  Rabs (1 - determinant (block33 M)) <= 1e-6 ->
  se3.matrix (Transformation_of_Matrix4d M) = M.
Proof.
  intros Hrow H. unfold se3.Transformation_of_Matrix4d.
  rewrite reproject_false_no_drift by exact H.
  destruct M. revert Hrow. unfold se3.matrix. cbn [se3.C_ba_ se3.r_ab_inb_].
  coeffs4. intros (-> & -> & -> & ->). reflexivity.
Qed.

Lemma Matrix4d_eq (T U : Matrix4d) :
  t00 T = t00 U -> t01 T = t01 U -> t02 T = t02 U -> t03 T = t03 U ->
  t10 T = t10 U -> t11 T = t11 U -> t12 T = t12 U -> t13 T = t13 U ->
  t20 T = t20 U -> t21 T = t21 U -> t22 T = t22 U -> t23 T = t23 U ->
  t30 T = t30 U -> t31 T = t31 U -> t32 T = t32 U -> t33 T = t33 U ->
  T = U.
Proof.
  destruct T, U.
  cbn [t00 t01 t02 t03 t10 t11 t12 t13 t20 t21 t22 t23 t30 t31 t32 t33].
  intros; subst; reflexivity.
Qed.

(** X13: when the composed rotation is within the tolerance, the matrix of a
    composition is the product of the matrices. *)
Theorem matrix_operator_mul (T U : se3.Transformation) :
  se3.no_drift (mmul (se3.C_ba_ T) (se3.C_ba_ U)) ->
  se3.matrix (operator_mul T U) = m4mul (se3.matrix T) (se3.matrix U).
Proof.
  intros H. rewrite (operator_mul_no_drift_eq T U H).
  destruct T as [[] []], U as [[] []]. unfold se3.matrix.
  cbn [se3.C_ba_ se3.r_ab_inb_].
  apply Matrix4d_eq; coeffs4; ring.
Qed.

(** X14: when the composed rotation is within the tolerance, [*] on
    homogeneous points is an action: [(T * U) * p = T * (U * p)]. *)
Theorem operator_mul_point_action
  (T U : se3.Transformation) (p : Vector4d) :
  se3.no_drift (mmul (se3.C_ba_ T) (se3.C_ba_ U)) ->
  se3.operator_mul_point (operator_mul T U) p
  = se3.operator_mul_point T (se3.operator_mul_point U p).
Proof.
  intros H. rewrite (operator_mul_no_drift_eq T U H).
  destruct T as [[] []], U as [[] []], p. unfold se3.operator_mul_point.
  cbn [se3.C_ba_ se3.r_ab_inb_]. coeffs4. f_equal; ring.
Qed.

Lemma vadd_mvmul_opp (C D : Matrix3d) (r s : Vector3d) :
  vadd r (mvmul C (mvmul (mscale (-1) D) s))
  = vadd r (mvmul (mscale (-1) (mmul C D)) s).
Proof. by_coefficients. Qed.

(** X15: when the rotation of [U] is within the tolerance, [T / U] and
    [T /= U] give the same object as [T * U.inverse()], for every [T]. *)
Theorem operator_div_is_mul_inverse (T U : se3.Transformation) :
  se3.no_drift (se3.C_ba_ U) ->
  operator_div T U = operator_mul T (inverse U)
  /\ operator_div_assign T U = operator_mul T (inverse U).
Proof.
  intros H.
  assert (E : operator_div T U = operator_mul T (inverse U)).
  { rewrite operator_div_unfold, operator_mul_unfold.
    rewrite (inverse_no_drift_eq U H). cbn [se3.C_ba_ se3.r_ab_inb_].
    now rewrite vadd_mvmul_opp. }
  split; [exact E |].
  rewrite <- E. unfold se3.operator_div. now rewrite Transformation_copy_id.
Qed.

Lemma mvmul_opp_opp (C D : Matrix3d) (r : Vector3d) :
  mvmul (mscale (-1) C) (mvmul (mscale (-1) D) r) = mvmul (mmul C D) r.
Proof. by_coefficients. Qed.

(** X16: on a transformation whose rotation is in SO(3), [inverse] is an
    involution. *)
Theorem inverse_involutive (T : se3.Transformation) :
  SO3 (se3.C_ba_ T) -> inverse (inverse T) = T.
Proof.
  intros H.
  rewrite (inverse_SO3 vec2rot rot2vec (inverse T));
    rewrite (inverse_SO3 vec2rot rot2vec T H); cbn [se3.C_ba_ se3.r_ab_inb_].
  - destruct T as [C r]. cbn [se3.C_ba_ se3.r_ab_inb_] in *.
    apply Transformation_eq.
    + apply transpose_transpose.
    + rewrite transpose_transpose, mvmul_opp_opp.
      rewrite (SO3_transpose_right C H). apply mvmul_Identity3.
  - now apply SO3_transpose.
Qed.

Lemma vadd_opp_cancel (C : Matrix3d) (r : Vector3d) :
  vadd (mvmul (mscale (-1) C) r) (mvmul C r) = Zero3.
Proof. by_coefficients. Qed.

(** X17: for a transformation whose rotation is in SO(3),
    [T.inverse() * T] is the identity transformation. *)
Theorem inverse_operator_mul (T : se3.Transformation) :
  SO3 (se3.C_ba_ T) ->
  operator_mul (inverse T) T = se3.Transformation_default.
Proof.
  intros H. pose proof H as [Horth Hdet].
  rewrite operator_mul_no_drift_eq;
    rewrite (inverse_SO3 vec2rot rot2vec T H); cbn [se3.C_ba_ se3.r_ab_inb_].
  - unfold se3.Transformation_default. apply Transformation_eq.
    + exact Horth.
    + apply vadd_opp_cancel.
  - unfold orthonormal in Horth. rewrite Horth.
    apply no_drift_det_1, determinant_Identity3.
Qed.

Lemma vadd_mvmul_assoc (A B : Matrix3d) (a b c : Vector3d) :
  vadd (vadd a (mvmul A b)) (mvmul (mmul A B) c)
  = vadd a (mvmul A (vadd b (mvmul B c))).
Proof. by_coefficients. Qed.

(** X18: on transformations whose rotations have determinant 1, the
    composition [*] is associative. *)
Theorem operator_mul_assoc (A B C : se3.Transformation) :
  determinant (se3.C_ba_ A) = 1 ->
  determinant (se3.C_ba_ B) = 1 ->
  determinant (se3.C_ba_ C) = 1 ->
  operator_mul (operator_mul A B) C = operator_mul A (operator_mul B C).
Proof.
  intros HA HB HC.
  assert (HAB : se3.no_drift (mmul (se3.C_ba_ A) (se3.C_ba_ B))).
  { apply no_drift_det_1. rewrite determinant_mmul, HA, HB. ring. }
  assert (HBC : se3.no_drift (mmul (se3.C_ba_ B) (se3.C_ba_ C))).
  { apply no_drift_det_1. rewrite determinant_mmul, HB, HC. ring. }
  rewrite (operator_mul_no_drift_eq A B HAB).
  rewrite (operator_mul_no_drift_eq B C HBC).
  rewrite !operator_mul_no_drift_eq; cbn [se3.C_ba_ se3.r_ab_inb_].
  - apply Transformation_eq.
    + apply mmul_assoc.
    + apply vadd_mvmul_assoc.
  - apply no_drift_det_1. rewrite !determinant_mmul, HA, HB, HC. ring.
  - apply no_drift_det_1. rewrite !determinant_mmul, HA, HB, HC. ring.
Qed.

Lemma inverse_product_translation (A B : Matrix3d) (a b : Vector3d) :
  mmul (transpose A) A = Identity3 ->
  mvmul (mscale (-1) (mmul (transpose B) (transpose A)))
        (vadd a (mvmul A b))
  = vadd (mvmul (mscale (-1) (transpose B)) b)
         (mvmul (transpose B) (mvmul (mscale (-1) (transpose A)) a)).
Proof.
  intros H.
  assert (E : mvmul (mmul (transpose B) (mmul (transpose A) A)) b
              = mvmul (transpose B) b).
  { now rewrite H, mmul_Identity3_r. }
  rewrite <- mmul_assoc in E.
  destruct A, B, a, b. revert E. coeffs. intros E.
  injection E as E0 E1 E2. f_equal; nsatz.
Qed.

(** X19: for transformations whose rotations are in SO(3), the inverse of a
    composition is the composition of the inverses in the opposite order. *)
Theorem inverse_of_operator_mul (T U : se3.Transformation) :
  SO3 (se3.C_ba_ T) -> SO3 (se3.C_ba_ U) ->
  inverse (operator_mul T U) = operator_mul (inverse U) (inverse T).
Proof.
  intros HT HU.
  assert (HTU : se3.no_drift (mmul (se3.C_ba_ T) (se3.C_ba_ U))).
  { apply no_drift_det_1. now apply SO3_mmul. }
  rewrite (operator_mul_no_drift_eq T U HTU).
  rewrite (inverse_no_drift_eq T) by (apply no_drift_det_1, HT).
  rewrite (inverse_no_drift_eq U) by (apply no_drift_det_1, HU).
  rewrite inverse_no_drift_eq by exact HTU.
  rewrite operator_mul_no_drift_eq; cbn [se3.C_ba_ se3.r_ab_inb_].
  - apply Transformation_eq.
    + apply transpose_mmul.
    + rewrite transpose_mmul. apply inverse_product_translation. apply HT.
  - apply no_drift_det_1.
    rewrite determinant_mmul, !determinant_transpose.
    destruct HT as [_ ->], HU as [_ ->]. ring.
Qed.

Lemma operator_mul_point_head
  (C : Matrix3d) (r : Vector3d) (p : Vector4d) :
  se3.operator_mul_point (se3.mkTransformation C r) p
  = mkVector4d (x0 (vadd (mvmul C (head3 p)) (vscale r (h3 p))))
               (x1 (vadd (mvmul C (head3 p)) (vscale r (h3 p))))
               (x2 (vadd (mvmul C (head3 p)) (vscale r (h3 p))))
               (h3 p).
Proof. reflexivity. Qed.

Lemma head3_of_head (v : Vector3d) (w : R) :
  head3 (mkVector4d (x0 v) (x1 v) (x2 v) w) = v.
Proof. now destruct v. Qed.

Lemma Vector4d_of_head3 (p : Vector4d) :
  mkVector4d (x0 (head3 p)) (x1 (head3 p)) (x2 (head3 p)) (h3 p) = p.
Proof. now destruct p. Qed.

Lemma point_round_trip_algebra
  (C D : Matrix3d) (r h : Vector3d) (w : R) :
  vadd (mvmul D (vadd (mvmul C h) (vscale r w)))
       (vscale (mvmul (mscale (-1) D) r) w)
  = mvmul (mmul D C) h.
Proof. by_coefficients. Qed.

(** X20: for a transformation whose rotation is in SO(3), [T.inverse()]
    undoes [T] on every homogeneous point. *)
Theorem inverse_operator_mul_point (T : se3.Transformation) (p : Vector4d) :
  SO3 (se3.C_ba_ T) ->
  se3.operator_mul_point (inverse T) (se3.operator_mul_point T p) = p.
Proof.
  intros H. rewrite (inverse_no_drift_eq T) by (apply no_drift_det_1, H).
  destruct H as [Horth _]. unfold orthonormal in Horth.
  destruct T as [C r]. cbn [se3.C_ba_ se3.r_ab_inb_] in *.
  rewrite !operator_mul_point_head. cbn [h3].
  rewrite head3_of_head, point_round_trip_algebra, Horth, mvmul_Identity3.
  now destruct p.
Qed.

Lemma rigid_difference (C : Matrix3d) (r a b : Vector3d) (w : R) :
  vsub (vadd (mvmul C a) (vscale r w)) (vadd (mvmul C b) (vscale r w))
  = mvmul C (vsub a b).
Proof. destruct C, r, a, b. coeffs4. f_equal; ring. Qed.

(** X21: a transformation whose rotation is orthonormal preserves the
    distance between two homogeneous points of the same last coefficient. *)
Theorem operator_mul_point_preserves_distance
  (T : se3.Transformation) (p q : Vector4d) :
  orthonormal (se3.C_ba_ T) ->
  h3 p = h3 q ->
  norm (vsub (head3 (se3.operator_mul_point T p))
             (head3 (se3.operator_mul_point T q)))
  = norm (vsub (head3 p) (head3 q)).
Proof.
  intros Horth Hw. destruct T as [C r]. cbn [se3.C_ba_] in Horth.
  rewrite !operator_mul_point_head, !head3_of_head.
  rewrite <- Hw, rigid_difference.
  unfold norm. now rewrite orthonormal_squaredNorm.
Qed.

(** X22: the constructor from [C_ba] and [r_ba_ina] does not depend on what
    the members hold before the body runs, and it always stores
    [-C * r_ba_ina] with the rotation [C] that it stores. *)
Theorem Transformation_of_C_ba_r_ba_ina_stores
  (i1 i2 : se3.Transformation) (C_ba : Matrix3d) (r_ba_ina : Vector3d) :
  Transformation_of_C_ba_r_ba_ina i1 C_ba r_ba_ina
  = Transformation_of_C_ba_r_ba_ina i2 C_ba r_ba_ina
  /\ se3.r_ab_inb_ (Transformation_of_C_ba_r_ba_ina i1 C_ba r_ba_ina)
     = mvmul
         (mscale (-1)
            (se3.C_ba_ (Transformation_of_C_ba_r_ba_ina i1 C_ba r_ba_ina)))
         r_ba_ina.
Proof.
  split; [| reflexivity].
  destruct i1 as [C1 r1], i2 as [C2 r2].
  unfold se3.Transformation_of_C_ba_r_ba_ina, se3.reproject, se3.set_C_ba_.
  cbn [se3.C_ba_ se3.r_ab_inb_].
  destruct (false || Rgtb (Rabs (1 - determinant C_ba)) 1e-6); reflexivity.
Qed.

Lemma Transformation_of_C_ba_r_ba_ina_no_drift
  (i : se3.Transformation) (C_ba : Matrix3d) (r_ba_ina : Vector3d) :
  se3.no_drift C_ba ->
  Transformation_of_C_ba_r_ba_ina i C_ba r_ba_ina
  = se3.mkTransformation C_ba (mvmul (mscale (-1) C_ba) r_ba_ina).
Proof.
  intros H. unfold se3.Transformation_of_C_ba_r_ba_ina.
  rewrite reproject_false_no_drift; [reflexivity | exact H].
Qed.

(** X23: for a matrix [C] of SO(3), the transformation constructed from
    [C] and [r] gives them back through [C_ba()] and [r_ba_ina()]. *)
Theorem accessors_of_Transformation_of_C_ba_r_ba_ina
  (i : se3.Transformation) (C : Matrix3d) (r : Vector3d) :
  SO3 C ->
  se3.C_ba (Transformation_of_C_ba_r_ba_ina i C r) = C
  /\ se3.r_ba_ina (Transformation_of_C_ba_r_ba_ina i C r) = r.
Proof.
  intros H.
  rewrite Transformation_of_C_ba_r_ba_ina_no_drift
    by (apply no_drift_det_1, H).
  split; [reflexivity |].
  unfold se3.r_ba_ina. cbn [se3.C_ba_ se3.r_ab_inb_].
  rewrite mvmul_opp_opp. destruct H as [-> _]. apply mvmul_Identity3.
Qed.

(** X24: a transformation whose rotation is in SO(3) is constructed again
    from its [C_ba()] and [r_ba_ina()]. *)
Theorem Transformation_of_accessors
  (i T : se3.Transformation) :
  SO3 (se3.C_ba_ T) ->
  Transformation_of_C_ba_r_ba_ina i (se3.C_ba T) (se3.r_ba_ina T) = T.
Proof.
  intros H. unfold se3.C_ba.
  rewrite Transformation_of_C_ba_r_ba_ina_no_drift
    by (apply no_drift_det_1, H).
  unfold se3.r_ba_ina. destruct T as [C r]. cbn [se3.C_ba_ se3.r_ab_inb_] in *.
  apply Transformation_eq; [reflexivity |].
  rewrite mvmul_opp_opp, (SO3_transpose_right C H). apply mvmul_Identity3.
Qed.

(** X25: if [vec2rot] returns matrices whose determinant is within [1e-6]
    of 1, a conditional reprojection after any reprojection changes
    nothing. *)
Theorem reproject_false_after_reproject
  (force : bool) (T : se3.Transformation) :
  (forall aaxis, se3.no_drift (vec2rot aaxis 0)) ->
  reproject false (reproject force T) = reproject force T.
Proof.
  intros Hexp.
  destruct (force || Rgtb (Rabs (1 - determinant (se3.C_ba_ T))) 1e-6)
    eqn:E.
  - rewrite (reproject_fires vec2rot rot2vec force T E).
    apply reproject_false_no_drift. cbn [se3.C_ba_]. apply Hexp.
  - rewrite (reproject_skips vec2rot rot2vec force T E).
    apply reproject_skips. apply orb_false_iff in E. now destruct E as [_ ->].
Qed.

Lemma matrix_product_blocks (C D : Matrix3d) (r s : Vector3d) :
  m4mul (se3.matrix (se3.mkTransformation C r))
        (se3.matrix (se3.mkTransformation D s))
  = se3.matrix (se3.mkTransformation (mmul C D) (vadd r (mvmul C s))).
Proof.
  destruct C, D, r, s. unfold se3.matrix. cbn [se3.C_ba_ se3.r_ab_inb_].
  apply Matrix4d_eq; coeffs4; ring.
Qed.

(** X9: for a transformation whose rotation is in SO(3), the matrix of
    [T.inverse()] is the inverse of the matrix of [T]: their products in both
    orders are the 4x4 identity. *)
Theorem matrix_inverse (T : se3.Transformation) :
  SO3 (se3.C_ba_ T) ->
  m4mul (se3.matrix (inverse T)) (se3.matrix T) = Identity4
  /\ m4mul (se3.matrix T) (se3.matrix (inverse T)) = Identity4.
Proof.
  intros H. rewrite (inverse_no_drift_eq T)
    by (apply no_drift_det_1, H).
  pose proof (SO3_transpose_right _ H) as Hr.
  destruct H as [Hl _]. unfold orthonormal in Hl.
  destruct T as [C r]. cbn [se3.C_ba_ se3.r_ab_inb_] in *.
  rewrite !matrix_product_blocks. split.
  - rewrite Hl, vadd_opp_cancel. reflexivity.
  - rewrite Hr, <- mvmul_mmul, mscale_mmul_r, Hr.
    replace (vadd r (mvmul (mscale (-1) Identity3) r)) with Zero3
      by by_coefficients.
    reflexivity.
Qed.

End TransformationFurther.

(** ** The dimension-checked constructors and the fixed-size ones *)

(** X26: on a vector of 3 rows the [Rotation] constructor from a [VectorXd]
    makes one call to [vec2rot], with [numTerms = 0], and returns what the
    constructor from a [Vector3d] returns for [numTerms = 0]. *)
Theorem Rotation_of_VectorXd_3_rows
  (vec2rot : Vector3d -> nat -> Matrix3d) (v : VectorXd) :
  rows v = 3%nat ->
  outcome (so3.Rotation_of_VectorXd vec2rot v)
  = inr (so3.Rotation_of_Vector3d vec2rot (toVector3d v) 0)
  /\ calls (so3.Rotation_of_VectorXd vec2rot v)
     = [call_vec2rot (toVector3d v) 0].
Proof.
  intros H. rewrite (Rotation_of_VectorXd_good vec2rot v H).
  split; reflexivity.
Qed.

(** X27: on a vector of 6 rows the [Transformation] constructor from a
    [VectorXd] makes one call to [vec2tran], with [numTerms = 0], and returns
    what the constructor from a 6-vector returns for [numTerms = 0]. *)
Theorem Transformation_of_VectorXd_6_rows
  (vec2tran : Vector6d -> nat -> Matrix3d * Vector3d) (v : VectorXd) :
  rows v = 6%nat ->
  outcome (se3.Transformation_of_VectorXd vec2tran v)
  = inr (se3.Transformation_of_Vector6d vec2tran (toVector6d v) 0)
  /\ calls (se3.Transformation_of_VectorXd vec2tran v)
     = [call_vec2tran (toVector6d v) 0].
Proof.
  intros H. rewrite (Transformation_of_VectorXd_good vec2tran v H).
  unfold se3.Transformation_of_Vector6d.
  destruct (vec2tran (toVector6d v) 0%nat). split; reflexivity.
Qed.

(** ** The further properties with a hypothesis, at concrete inputs

    The rotation is the quarter turn about z, the translation [[1, 2, 3]]. *)

Lemma quarter_turn_no_drift : se3.no_drift (mkMatrix3d 0 (-1) 0 1 0 0 0 0 1).
Proof. apply no_drift_det_1, quarter_turn_SO3. Qed.

Lemma quarter_turn_twice_no_drift :
  se3.no_drift (mmul (mkMatrix3d 0 (-1) 0 1 0 0 0 0 1)
                     (mkMatrix3d 0 (-1) 0 1 0 0 0 0 1)).
Proof.
  apply no_drift_det_1, SO3_mmul; exact quarter_turn_SO3.
Qed.

Lemma Rotation_inverse_cancels_witness :
  let C := so3.mkRotation (mkMatrix3d 0 (-1) 0 1 0 0 0 0 1) in
  SO3 (so3.C_ba_ C)
  /\ (so3.operator_mul C (so3.inverse C) = so3.Rotation_default
      /\ so3.operator_mul (so3.inverse C) C = so3.Rotation_default).
Proof.
  intros C. split.
  - exact quarter_turn_SO3.
  - apply (Rotation_inverse_cancels C). exact quarter_turn_SO3.
Defined.

Lemma Rotation_operator_mul_point_isometry_witness :
  let C := so3.mkRotation (mkMatrix3d 0 (-1) 0 1 0 0 0 0 1) in
  let p := mkVector3d 1 2 3 in
  orthonormal (so3.C_ba_ C)
  /\ (norm (so3.operator_mul_point C p) = norm p
      /\ so3.operator_mul_point (so3.inverse C) (so3.operator_mul_point C p)
         = p).
Proof.
  intros C p. split.
  - exact (proj1 quarter_turn_SO3).
  - apply (Rotation_operator_mul_point_isometry C p).
    exact (proj1 quarter_turn_SO3).
Defined.

Section FurtherWitnesses.

Let vec2rot := Operations.vec2rot 1e-9.
Let rot2vec := Operations.rot2vec 1e-9.
Let Q := mkMatrix3d 0 (-1) 0 1 0 0 0 0 1.
Let T := se3.mkTransformation Q (mkVector3d 1 2 3).

Lemma inverse_within_tolerance_witness :
  Rabs (1 - determinant (se3.C_ba_ T)) <= 1e-6
  /\ (se3.C_ba (se3.inverse vec2rot rot2vec T) = transpose (se3.C_ba T)
      /\ se3.r_ab_inb (se3.inverse vec2rot rot2vec T) = se3.r_ba_ina T).
Proof.
  split.
  - exact quarter_turn_no_drift.
  - apply (inverse_within_tolerance vec2rot rot2vec T).
    exact quarter_turn_no_drift.
Defined.

Lemma matrix_inverse_witness :
  SO3 (se3.C_ba_ T)
  /\ (m4mul (se3.matrix (se3.inverse vec2rot rot2vec T)) (se3.matrix T)
      = Identity4
      /\ m4mul (se3.matrix T) (se3.matrix (se3.inverse vec2rot rot2vec T))
         = Identity4).
Proof.
  split.
  - exact quarter_turn_SO3.
  - apply (matrix_inverse vec2rot rot2vec T). exact quarter_turn_SO3.
Defined.

Lemma matrix_of_Transformation_witness :
  let M := mkMatrix4d 0 (-1) 0 1
                      1 0 0 2
                      0 0 1 3
                      0 0 0 1 in
  bottom_row_0001 M
  /\ Rabs (1 - determinant (block33 M)) <= 1e-6
  /\ se3.matrix (se3.Transformation_of_Matrix4d vec2rot rot2vec M) = M.
Proof.
  intros M.
  assert (Hrow : bottom_row_0001 M) by (repeat split).
  assert (Hdet : Rabs (1 - determinant (block33 M)) <= 1e-6)
    by exact quarter_turn_no_drift.
  split; [exact Hrow |]. split; [exact Hdet |].
  exact (matrix_of_Transformation vec2rot rot2vec M Hrow Hdet).
Defined.

Lemma matrix_operator_mul_witness :
  se3.no_drift (mmul (se3.C_ba_ T) (se3.C_ba_ T))
  /\ se3.matrix (se3.operator_mul vec2rot rot2vec T T)
     = m4mul (se3.matrix T) (se3.matrix T).
Proof.
  split.
  - exact quarter_turn_twice_no_drift.
  - apply (matrix_operator_mul vec2rot rot2vec T T).
    exact quarter_turn_twice_no_drift.
Defined.

Lemma operator_mul_point_action_witness :
  let p := mkVector4d 1 0 0 1 in
  se3.no_drift (mmul (se3.C_ba_ T) (se3.C_ba_ T))
  /\ se3.operator_mul_point (se3.operator_mul vec2rot rot2vec T T) p
     = se3.operator_mul_point T (se3.operator_mul_point T p).
Proof.
  intros p. split.
  - exact quarter_turn_twice_no_drift.
  - apply (operator_mul_point_action vec2rot rot2vec T T p).
    exact quarter_turn_twice_no_drift.
Defined.

Lemma operator_div_is_mul_inverse_witness :
  let D := se3.mkTransformation (mscale 2 Identity3) (mkVector3d 4 5 6) in
  se3.no_drift (se3.C_ba_ T)
  /\ (se3.operator_div vec2rot rot2vec D T
      = se3.operator_mul vec2rot rot2vec D (se3.inverse vec2rot rot2vec T)
      /\ se3.operator_div_assign vec2rot rot2vec D T
         = se3.operator_mul vec2rot rot2vec D
             (se3.inverse vec2rot rot2vec T)).
Proof.
  intros D. split.
  - exact quarter_turn_no_drift.
  - apply (operator_div_is_mul_inverse vec2rot rot2vec D T).
    exact quarter_turn_no_drift.
Defined.

Lemma inverse_involutive_witness :
  SO3 (se3.C_ba_ T)
  /\ se3.inverse vec2rot rot2vec (se3.inverse vec2rot rot2vec T) = T.
Proof.
  split.
  - exact quarter_turn_SO3.
  - apply (inverse_involutive vec2rot rot2vec T). exact quarter_turn_SO3.
Defined.

Lemma inverse_operator_mul_witness :
  SO3 (se3.C_ba_ T)
  /\ se3.operator_mul vec2rot rot2vec (se3.inverse vec2rot rot2vec T) T
     = se3.Transformation_default.
Proof.
  split.
  - exact quarter_turn_SO3.
  - apply (inverse_operator_mul vec2rot rot2vec T). exact quarter_turn_SO3.
Defined.

Lemma operator_mul_assoc_witness :
  determinant (se3.C_ba_ T) = 1
  /\ se3.operator_mul vec2rot rot2vec (se3.operator_mul vec2rot rot2vec T T) T
     = se3.operator_mul vec2rot rot2vec T
         (se3.operator_mul vec2rot rot2vec T T).
Proof.
  split.
  - exact (proj2 quarter_turn_SO3).
  - apply (operator_mul_assoc vec2rot rot2vec T T T);
      exact (proj2 quarter_turn_SO3).
Defined.

Lemma inverse_of_operator_mul_witness :
  SO3 (se3.C_ba_ T)
  /\ se3.inverse vec2rot rot2vec (se3.operator_mul vec2rot rot2vec T T)
     = se3.operator_mul vec2rot rot2vec
         (se3.inverse vec2rot rot2vec T) (se3.inverse vec2rot rot2vec T).
Proof.
  split.
  - exact quarter_turn_SO3.
  - apply (inverse_of_operator_mul vec2rot rot2vec T T);
      exact quarter_turn_SO3.
Defined.

Lemma inverse_operator_mul_point_witness :
  let p := mkVector4d 1 0 0 1 in
  SO3 (se3.C_ba_ T)
  /\ se3.operator_mul_point (se3.inverse vec2rot rot2vec T)
       (se3.operator_mul_point T p) = p.
Proof.
  intros p. split.
  - exact quarter_turn_SO3.
  - apply (inverse_operator_mul_point vec2rot rot2vec T p).
    exact quarter_turn_SO3.
Defined.

Lemma operator_mul_point_preserves_distance_witness :
  let p := mkVector4d 1 0 0 1 in
  let q := mkVector4d 0 1 0 1 in
  orthonormal (se3.C_ba_ T)
  /\ h3 p = h3 q
  /\ norm (vsub (head3 (se3.operator_mul_point T p))
                (head3 (se3.operator_mul_point T q)))
     = norm (vsub (head3 p) (head3 q)).
Proof.
  intros p q. split; [exact (proj1 quarter_turn_SO3) |].
  split; [reflexivity |].
  apply (operator_mul_point_preserves_distance T p q).
  - exact (proj1 quarter_turn_SO3).
  - reflexivity.
Defined.

Lemma accessors_of_Transformation_of_C_ba_r_ba_ina_witness :
  let r := mkVector3d 1 2 3 in
  let i := se3.Transformation_default in
  SO3 Q
  /\ (se3.C_ba (se3.Transformation_of_C_ba_r_ba_ina vec2rot rot2vec i Q r)
      = Q
      /\ se3.r_ba_ina
           (se3.Transformation_of_C_ba_r_ba_ina vec2rot rot2vec i Q r)
         = r).
Proof.
  intros r i. split.
  - exact quarter_turn_SO3.
  - apply (accessors_of_Transformation_of_C_ba_r_ba_ina vec2rot rot2vec i Q r).
    exact quarter_turn_SO3.
Defined.

Lemma Transformation_of_accessors_witness :
  let i := se3.Transformation_default in
  SO3 (se3.C_ba_ T)
  /\ se3.Transformation_of_C_ba_r_ba_ina vec2rot rot2vec i
       (se3.C_ba T) (se3.r_ba_ina T)
     = T.
Proof.
  intros i. split.
  - exact quarter_turn_SO3.
  - apply (Transformation_of_accessors vec2rot rot2vec i T).
    exact quarter_turn_SO3.
Defined.

Lemma reproject_false_after_reproject_witness :
  let D := se3.mkTransformation (mscale 2 Identity3) (mkVector3d 4 5 6) in
  (forall aaxis, se3.no_drift (vec2rot aaxis 0%nat))
  /\ se3.reproject vec2rot rot2vec false (se3.reproject vec2rot rot2vec true D)
     = se3.reproject vec2rot rot2vec true D.
Proof.
  intros D.
  assert (H : forall aaxis, se3.no_drift (vec2rot aaxis 0%nat)).
  { intros aaxis. apply no_drift_det_1, vec2rot_SO3. }
  split.
  - exact H.
  - exact (reproject_false_after_reproject vec2rot rot2vec true D H).
Defined.

Lemma Rotation_of_VectorXd_3_rows_witness :
  let v := [1; 2; 3] in
  rows v = 3%nat
  /\ (outcome (so3.Rotation_of_VectorXd vec2rot v)
      = inr (so3.Rotation_of_Vector3d vec2rot (toVector3d v) 0)
      /\ calls (so3.Rotation_of_VectorXd vec2rot v)
         = [call_vec2rot (toVector3d v) 0]).
Proof.
  intros v. split.
  - reflexivity.
  - apply (Rotation_of_VectorXd_3_rows vec2rot v). reflexivity.
Defined.

Lemma Transformation_of_VectorXd_6_rows_witness :
  let vec2tran := fun (_ : Vector6d) (_ : nat) => (Identity3, Zero3) in
  let v := [1; 2; 3; 4; 5; 6] in
  rows v = 6%nat
  /\ (outcome (se3.Transformation_of_VectorXd vec2tran v)
      = inr (se3.Transformation_of_Vector6d vec2tran (toVector6d v) 0)
      /\ calls (se3.Transformation_of_VectorXd vec2tran v)
         = [call_vec2tran (toVector6d v) 0]).
Proof.
  intros vec2tran v. split.
  - reflexivity.
  - apply (Transformation_of_VectorXd_6_rows vec2tran v). reflexivity.
Defined.

End FurtherWitnesses.
